(** * Fake news detector: the classification client and its caller

    A shallow embedding of [fake_news_app.py]:
    - [classify_text_with_api] (lines 26-82), the request/retry loop around
      the remote chat-completion endpoint;
    - [extract_text_from_url] (lines 86-97), the article fetch;
    - the URL branch of the page script (lines 139-147), which decides
      whether the classifier is called at all.

    Python values are an inductive type, Python exceptions are values of
    an error type, and the program runs in a state-and-exception monad
    whose state holds the outside world (the network) and the chronological
    log of everything the program did to it: requests posted, messages
    shown on the page, seconds slept. *)

From Stdlib Require Import ZArith String Ascii DecimalString List Bool Lia.
From Stdlib Require Import Floats.SpecFloat.
Import ListNotations.

Local Set Warnings "-register-all".
Local Open Scope string_scope.
Local Open Scope Z_scope.

(** ** Strings *)

Module Str.

(** The double quote and the line feed, which a literal cannot hold. *)
Definition dq : string := String "034"%char EmptyString.
Definition nl : string := String "010"%char EmptyString.

(** [quoted s] is [s] between double quotes. *)
Definition quoted (s : string) : string := dq ++ s ++ dq.

(** Python's [s[:n]]: the first [n] characters, all of [s] when it is
    shorter. *)
Fixpoint take (n : nat) (s : string) : string :=
  match n, s with
  | S n', String c s' => String c (take n' s')
  | _, _ => EmptyString
  end.

(** [starts_with p s]: [s] begins with [p]. *)
Fixpoint starts_with (p s : string) : bool :=
  match p, s with
  | EmptyString, _ => true
  | String a p', String b s' => Ascii.eqb a b && starts_with p' s'
  | String _ _, EmptyString => false
  end.

(** Python's [p in s] on two strings: [p] occurs in [s] as a substring. *)
Fixpoint contains (p s : string) : bool :=
  starts_with p s ||
  match s with
  | EmptyString => false
  | String _ s' => contains p s'
  end.

(** [drop_prefix p s]: what follows [p] in [s], when [s] begins with it. *)
Fixpoint drop_prefix (p s : string) : option string :=
  match p, s with
  | EmptyString, _ => Some s
  | String a p', String b s' =>
      if Ascii.eqb a b then drop_prefix p' s' else None
  | String _ _, EmptyString => None
  end.

(** Python's [str(n)] on an integer. *)
Definition of_Z (n : Z) : string :=
  DecimalString.NilZero.string_of_int (Z.to_int n).

End Str.

(** ** Python values *)

Module Py.

(** A Python float is an IEEE 754 binary64 number. *)
Definition prec : Z := 53.
Definition emax : Z := 1024.
Definition pyfloat : Type := spec_float.

(** Python's [float] of the decimal [(-1)^neg * m * 10^e], [m >= 0]:
    the nearest binary64 number, ties to even. *)
Definition float_of_decimal (neg : bool) (m e : Z) : pyfloat :=
  match m with
  | Z.pos p =>
      if 0 <=? e
      then binary_normalize prec emax
             ((if neg then Z.neg p else Z.pos p) * 10 ^ e) 0 false
      else SFdiv prec emax (S754_finite neg p 0)
             (S754_finite false (Z.to_pos (10 ^ (- e))) 0)
  | _ => S754_zero neg
  end.

(** The values [json.loads] can build, which are all the values the
    program handles besides its own strings. A [PDict] keeps its items in
    insertion order; every key is a string, as in JSON. *)
Inductive pyval : Type :=
| PNone
| PBool (b : bool)
| PInt (n : Z)
| PFloat (x : pyfloat)
| PStr (s : string)
| PList (items : list pyval)
| PDict (items : list (string * pyval)).

(** What stands between the brackets of [v[k]]. *)
Inductive subscript : Type :=
| Key (s : string)
| Index (i : Z).

(** An HTTP response as the program reads it: [response.status_code] and
    the body behind [response.json()]. *)
Record response : Type := mkResponse {
  status_code : Z;
  text : string
}.

(** The exceptions that can be raised while the program runs. All but
    [StopException] derive from Python's [Exception]; Streamlit's
    [StopException], raised by [st.stop()], derives from [BaseException]
    only. [RequestException] stands for the transport failures of
    [requests] (connection errors, timeouts, ...), none of which is an
    [HTTPError]. *)
Inductive exn : Type :=
| HTTPError (r : response)
| RequestException (descr : string)
| JSONDecodeError (doc : string)
| KeyError (k : subscript)
| IndexError
| TypeError
| ArticleException (descr : string)
| StopException.

(** [isinstance(e, Exception)]. *)
Definition is_Exception (e : exn) : bool :=
  match e with
  | StopException => false
  | _ => true
  end.

(** Python's truth value of an object. *)
Definition truthy (v : pyval) : bool :=
  match v with
  | PNone => false
  | PBool b => b
  | PInt n => negb (n =? 0)
  | PFloat x => match x with S754_zero _ => false | _ => true end
  | PStr s => match s with EmptyString => false | _ => true end
  | PList l => match l with [] => false | _ => true end
  | PDict d => match d with [] => false | _ => true end
  end.

(** Lookup of a key in the items of a dict. *)
Fixpoint dict_get (k : string) (d : list (string * pyval)) : option pyval :=
  match d with
  | [] => None
  | (k', v) :: d' => if String.eqb k k' then Some v else dict_get k d'
  end.

(** [d[k] = v] on the items of a dict: an existing key keeps its place. *)
Fixpoint dict_set (k : string) (v : pyval) (d : list (string * pyval))
  : list (string * pyval) :=
  match d with
  | [] => [(k, v)]
  | (k', v') :: d' =>
      if String.eqb k k' then (k, v) :: d' else (k', v') :: dict_set k v d'
  end.

(** [v == s] for a string [s]: only an equal string compares equal. *)
Definition eq_str (s : string) (v : pyval) : bool :=
  match v with
  | PStr t => String.eqb s t
  | _ => false
  end.

(** [s in v] for a string [s]: key membership in a dict, element
    membership in a list, substring test in a string; [TypeError] for a
    value that is no container. *)
Definition contains (s : string) (v : pyval) : exn + bool :=
  match v with
  | PDict d => inr (match dict_get s d with Some _ => true | None => false end)
  | PList l => inr (existsb (eq_str s) l)
  | PStr t => inr (Str.contains s t)
  | _ => inl TypeError
  end.

(** Position [i] of a sequence of length [len], counted from the end when
    negative. *)
Definition position (len i : Z) : option nat :=
  if (0 <=? i) && (i <? len) then Some (Z.to_nat i)
  else if (- len <=? i) && (i <? 0) then Some (Z.to_nat (len + i))
  else None.

(** [v[k]]. A dict raises [KeyError] for an absent key (an integer is
    never a key of a decoded JSON object); a list and a string take an
    integer and raise [IndexError] out of range, [TypeError] for a string
    subscript; nothing else can be subscripted. *)
Definition getitem (v : pyval) (k : subscript) : exn + pyval :=
  match v, k with
  | PDict d, Key s =>
      match dict_get s d with
      | Some x => inr x
      | None => inl (KeyError k)
      end
  | PDict _, Index _ => inl (KeyError k)
  | PList l, Index i =>
      match position (Z.of_nat (List.length l)) i with
      | Some n =>
          match nth_error l n with
          | Some x => inr x
          | None => inl IndexError
          end
      | None => inl IndexError
      end
  | PStr s, Index i =>
      match position (Z.of_nat (String.length s)) i with
      | Some n =>
          match String.get n s with
          | Some c => inr (PStr (String c EmptyString))
          | None => inl IndexError
          end
      | None => inl IndexError
      end
  | _, _ => inl TypeError
  end.

End Py.

(** ** A reference JSON decoder

    [json.loads] and [response.json()] belong to Python's library, not to
    the program: the program's model takes the decoder as a parameter (see
    [Runtime]) and its theorems hold for every decoder. [Json.loads] is a
    decoder to run the program on concrete responses. It follows the
    grammar of Python's [json] scanner (objects, arrays, strings with their
    escapes, numbers, [true], [false], [null], [NaN], [Infinity],
    [-Infinity]; a repeated key keeps its last value). A character is one
    of the first 256 code points: a [\u] escape above code 255 has no
    character here and is refused. [None] stands for [JSONDecodeError]. *)

Module Json.
Import Py.

Definition is_ws (c : ascii) : bool :=
  match c with
  | " "%char | "009"%char | "010"%char | "013"%char => true
  | _ => false
  end.

Fixpoint skip_ws (s : string) : string :=
  match s with
  | String c s' => if is_ws c then skip_ws s' else s
  | EmptyString => s
  end.

Definition digit (c : ascii) : option Z :=
  let n := Z.of_nat (nat_of_ascii c) in
  if (48 <=? n) && (n <=? 57) then Some (n - 48) else None.

Definition hex_digit (c : ascii) : option Z :=
  let n := Z.of_nat (nat_of_ascii c) in
  if (48 <=? n) && (n <=? 57) then Some (n - 48)
  else if (65 <=? n) && (n <=? 70) then Some (n - 55)
  else if (97 <=? n) && (n <=? 102) then Some (n - 87)
  else None.

(** The longest run of decimal digits at the head of [s]: its value
    after [acc], its length after [len], and what follows. *)
Fixpoint digits (s : string) (acc : Z) (len : Z) : Z * Z * string :=
  match s with
  | String c s' =>
      match digit c with
      | Some d => digits s' (10 * acc + d) (len + 1)
      | None => (acc, len, s)
      end
  | EmptyString => (acc, len, s)
  end.

(** The integer part of a number: [0], or a digit from 1 to 9 and the
    digits behind it. *)
Definition scan_int (s : string) : option (Z * string) :=
  match s with
  | String c s' =>
      match digit c with
      | Some 0 => Some (0, s')
      | Some _ => let '(v, _, r) := digits s 0 0 in Some (v, r)
      | None => None
      end
  | EmptyString => None
  end.

(** The fraction, when a dot and at least one digit follow: the digits'
    value and their number. *)
Definition scan_frac (s : string) : option (Z * Z * string) :=
  match s with
  | String "."%char s' =>
      let '(v, n, r) := digits s' 0 0 in
      if 0 <? n then Some (v, n, r) else None
  | _ => None
  end.

(** The exponent, when [e] or [E], an optional sign and at least one
    digit follow. *)
Definition scan_exp (s : string) : option (Z * string) :=
  match s with
  | String c s' =>
      if Ascii.eqb c "e" || Ascii.eqb c "E" then
        let '(neg, s'') :=
          match s' with
          | String "-"%char t => (true, t)
          | String "+"%char t => (false, t)
          | _ => (false, s')
          end in
        let '(v, n, r) := digits s'' 0 0 in
        if 0 <? n then Some ((if neg then - v else v), r) else None
      else None
  | EmptyString => None
  end.

(** A number: an [int] when it has neither fraction nor exponent, a
    [float] otherwise. *)
Definition scan_number (s : string) : option (pyval * string) :=
  let '(neg, s1) :=
    match s with
    | String "-"%char t => (true, t)
    | _ => (false, s)
    end in
  match scan_int s1 with
  | None => None
  | Some (ip, s2) =>
      let '(fv, fn, s3, has_frac) :=
        match scan_frac s2 with
        | Some (v, n, r) => (v, n, r, true)
        | None => (0, 0, s2, false)
        end in
      let '(ev, s4, has_exp) :=
        match scan_exp s3 with
        | Some (v, r) => (v, r, true)
        | None => (0, s3, false)
        end in
      if has_frac || has_exp
      then Some (PFloat (float_of_decimal neg (ip * 10 ^ fn + fv) (ev - fn)), s4)
      else Some (PInt (if neg then - ip else ip), s4)
  end.

(** The four hexadecimal digits of a [\u] escape, as a character. *)
Definition scan_hex4 (a b c d : ascii) : option ascii :=
  match hex_digit a, hex_digit b, hex_digit c, hex_digit d with
  | Some x, Some y, Some z, Some w =>
      let n := ((x * 16 + y) * 16 + z) * 16 + w in
      if n <? 256 then Some (ascii_of_nat (Z.to_nat n)) else None
  | _, _, _, _ => None
  end.

(** The simple escapes. *)
Definition unescape (c : ascii) : option ascii :=
  match c with
  | "034"%char => Some "034"%char
  | "\"%char => Some "\"%char
  | "/"%char => Some "/"%char
  | "b"%char => Some "008"%char
  | "f"%char => Some "012"%char
  | "n"%char => Some "010"%char
  | "r"%char => Some "013"%char
  | "t"%char => Some "009"%char
  | _ => None
  end.

(** A string, from behind its opening quote to its closing quote. A
    control character is refused, as in the scanner's strict mode. *)
Fixpoint scanstring (s : string) : option (string * string) :=
  match s with
  | EmptyString => None
  | String "034"%char r => Some (EmptyString, r)
  | String "\"%char (String "u"%char (String a (String b (String c (String d r))))) =>
      match scan_hex4 a b c d, scanstring r with
      | Some x, Some (t, r') => Some (String x t, r')
      | _, _ => None
      end
  | String "\"%char (String e r) =>
      match unescape e, scanstring r with
      | Some x, Some (t, r') => Some (String x t, r')
      | _, _ => None
      end
  | String "\"%char EmptyString => None
  | String c r =>
      if (nat_of_ascii c <? 32)%nat then None
      else
        match scanstring r with
        | Some (t, r') => Some (String c t, r')
        | None => None
        end
  end.

(** The constants. *)
Definition scan_constant (s : string) : option (pyval * string) :=
  match Str.drop_prefix "null" s with
  | Some r => Some (PNone, r)
  | None =>
  match Str.drop_prefix "true" s with
  | Some r => Some (PBool true, r)
  | None =>
  match Str.drop_prefix "false" s with
  | Some r => Some (PBool false, r)
  | None =>
  match scan_number s with
  | Some x => Some x
  | None =>
  match Str.drop_prefix "NaN" s with
  | Some r => Some (PFloat S754_nan, r)
  | None =>
  match Str.drop_prefix "Infinity" s with
  | Some r => Some (PFloat (S754_infinity false), r)
  | None =>
  match Str.drop_prefix "-Infinity" s with
  | Some r => Some (PFloat (S754_infinity true), r)
  | None => None
  end end end end end end end.

(** One value at the head of [s]. [scan_items] reads the elements of an
    array from behind its bracket, [scan_members] the members of an
    object from its first key. Every call consumes a character before
    the next one, so fuel beyond the length of the text is never used. *)
Fixpoint scan_once (fuel : nat) (s : string) : option (pyval * string) :=
  match fuel with
  | O => None
  | S fuel' =>
      match s with
      | String "034"%char r =>
          match scanstring r with
          | Some (t, r') => Some (PStr t, r')
          | None => None
          end
      | String "{"%char r =>
          match skip_ws r with
          | String "}"%char r' => Some (PDict [], r')
          | r' => scan_members fuel' r' []
          end
      | String "["%char r =>
          match skip_ws r with
          | String "]"%char r' => Some (PList [], r')
          | r' => scan_items fuel' r' []
          end
      | _ => scan_constant s
      end
  end
with scan_items (fuel : nat) (s : string) (acc : list pyval)
  : option (pyval * string) :=
  match fuel with
  | O => None
  | S fuel' =>
      match scan_once fuel' s with
      | None => None
      | Some (v, r) =>
          match skip_ws r with
          | String "]"%char r' => Some (PList (acc ++ [v])%list, r')
          | String ","%char r' => scan_items fuel' (skip_ws r') (acc ++ [v])%list
          | _ => None
          end
      end
  end
with scan_members (fuel : nat) (s : string) (acc : list (string * pyval))
  : option (pyval * string) :=
  match fuel with
  | O => None
  | S fuel' =>
      match s with
      | String "034"%char r =>
          match scanstring r with
          | None => None
          | Some (k, r1) =>
              match skip_ws r1 with
              | String ":"%char r2 =>
                  match scan_once fuel' (skip_ws r2) with
                  | None => None
                  | Some (v, r3) =>
                      match skip_ws r3 with
                      | String "}"%char r4 => Some (PDict (dict_set k v acc), r4)
                      | String ","%char r4 =>
                          scan_members fuel' (skip_ws r4) (dict_set k v acc)
                      | _ => None
                      end
                  end
              | _ => None
              end
          end
      | _ => None
      end
  end.

(** [json.loads(s)]: one value between optional white space, and nothing
    else. *)
Definition loads (s : string) : option pyval :=
  match scan_once (2 * String.length s + 2) (skip_ws s) with
  | Some (v, r) =>
      match skip_ws r with
      | EmptyString => Some v
      | _ => None
      end
  | None => None
  end.

End Json.

(** ** The outside world *)

(** What [requests.post] is given. *)
Record request : Type := mkRequest {
  url : string;
  headers : Py.pyval;
  json : Py.pyval
}.

(** Everything the program does that can be seen from outside, in the
    order it happens. *)
Inductive event : Type :=
| Post (r : request)            (* requests.post(...) *)
| Download (url : string)       (* Article(url).download() *)
| StWarning (msg : string)      (* st.warning(msg) *)
| StError (msg : string)        (* st.error(msg) *)
| Sleep (seconds : Z).          (* time.sleep(seconds) *)

(** The libraries and the network the program runs on. [requests_post]
    answers a request with a response or fails in transport (with the
    failure's description); [article_text] is the text that [newspaper]
    extracts from a page, or the description of its failure; [json_loads]
    is the JSON decoder ([None] when the text is no JSON); [exn_str] is
    Python's [str(e)] on an exception; [GROQ_API_KEY] is the secret read at
    startup (lines 10-14: without it the page halts before anything here
    runs). *)
Class Runtime : Type := {
  World : Type;
  GROQ_API_KEY : string;
  requests_post : request -> World -> (string + Py.response) * World;
  article_text : string -> World -> (string + string) * World;
  json_loads : string -> option Py.pyval;
  exn_str : Py.exn -> string
}.

(** ** The program monad *)

Section Monad.
Context {R : Runtime}.
Import Py.

Record state : Type := mkState {
  world : World;
  log : list event
}.

(** A computation runs from a state to a value or a raised exception,
    and a new state. *)
Definition M (A : Type) : Type := state -> (exn + A) * state.

Definition ret {A} (a : A) : M A := fun s => (inr a, s).

Definition raise {A} (e : exn) : M A := fun s => (inl e, s).

Definition bind {A B} (c : M A) (k : A -> M B) : M B :=
  fun s =>
    match c s with
    | (inr a, s') => k a s'
    | (inl e, s') => (inl e, s')
    end.

(** [try: c  except ... as e: h e]; a handler re-raises what no clause
    of the statement catches. *)
Definition try_except {A} (c : M A) (h : exn -> M A) : M A :=
  fun s =>
    match c s with
    | (inr a, s') => (inr a, s')
    | (inl e, s') => h e s'
    end.

(** An operation of the language that returns or raises. *)
Definition lift {A} (r : exn + A) : M A := fun s => (r, s).

Definition emit (e : event) : M unit :=
  fun s => (inr tt, {| world := world s; log := (log s ++ [e])%list |}).

End Monad.

Declare Scope py_scope.
Delimit Scope py_scope with py.
Notation "x <- c ;; k" := (bind c (fun x => k))
  (at level 61, c at next level, right associativity) : py_scope.
Notation "c ;; k" := (bind c (fun _ => k))
  (at level 61, right associativity) : py_scope.

(** ** The program *)

Section Program.
Context {R : Runtime}.
Import Py.
Local Open Scope py_scope.

(** *** Library calls *)

Definition st_warning (msg : string) : M unit := emit (StWarning msg).
Definition st_error (msg : string) : M unit := emit (StError msg).
Definition time_sleep (seconds : Z) : M unit := emit (Sleep seconds).

(** [st.stop()] ends the script run by raising. *)
Definition st_stop {A} : M A := raise StopException.

(** [requests.post(url, headers=..., json=...)]. *)
Definition post (rq : request) : M response :=
  fun s =>
    let '(r, w) := requests_post rq (world s) in
    let s' := {| world := w; log := (log s ++ [Post rq])%list |} in
    match r with
    | inr resp => (inr resp, s')
    | inl descr => (inl (RequestException descr), s')
    end.

(** [response.raise_for_status()]: an [HTTPError] for a status from 400
    to 599. *)
Definition is_http_error (status : Z) : bool :=
  (400 <=? status) && (status <? 600).

Definition raise_for_status (r : response) : M unit :=
  if is_http_error (status_code r) then raise (HTTPError r) else ret tt.

(** [response.json()]. *)
Definition response_json (r : response) : M pyval :=
  match json_loads (text r) with
  | Some v => ret v
  | None => raise (JSONDecodeError (text r))
  end.

(** [json.loads(v)]: [v] has to be a string. *)
Definition loads (v : pyval) : M pyval :=
  match v with
  | PStr s =>
      match json_loads s with
      | Some x => ret x
      | None => raise (JSONDecodeError s)
      end
  | _ => raise TypeError
  end.

(** [Article(url)], [download()], [parse()] and [.text]. *)
Definition article (u : string) : M string :=
  fun s =>
    let '(r, w) := article_text u (world s) in
    let s' := {| world := w; log := (log s ++ [Download u])%list |} in
    match r with
    | inr t => (inr t, s')
    | inl descr => (inl (ArticleException descr), s')
    end.

(** *** Configuration (lines 16-22) *)

Definition GROQ_API_URL : string :=
  "https://api.groq.com/openai/v1/chat/completions".

Definition HEADERS : pyval :=
  PDict [("Authorization", PStr ("Bearer " ++ GROQ_API_KEY));
         ("Content-Type", PStr "application/json")].

(** *** [classify_text_with_api] (lines 26-82) *)

(** The f-string of lines 31-45. *)
Definition prompt (text : string) : string :=
  Str.nl
  ++ "    You are an expert fact-checker. Analyze the following text and classify it as "
  ++ Str.quoted "True" ++ ", " ++ Str.quoted "Fake" ++ ", or "
  ++ Str.quoted "Unverifiable" ++ "." ++ Str.nl
  ++ "    Provide a prediction and two confidence scores (from 0.0 to 1.0) for "
  ++ Str.quoted "real" ++ " and " ++ Str.quoted "fake" ++ " news." ++ Str.nl
  ++ "    " ++ Str.nl
  ++ "    Text to analyze: " ++ Str.quoted text ++ Str.nl
  ++ Str.nl
  ++ "    Please respond with a JSON object in the following format. Ensure the response is only the JSON object, with no extra text or markdown formatting."
  ++ Str.nl
  ++ "    {" ++ Str.nl
  ++ "      " ++ Str.quoted "prediction" ++ ": " ++ Str.quoted "True" ++ " | "
  ++ Str.quoted "Fake" ++ " | " ++ Str.quoted "Unverifiable" ++ "," ++ Str.nl
  ++ "      " ++ Str.quoted "real_confidence" ++ ": number," ++ Str.nl
  ++ "      " ++ Str.quoted "fake_confidence" ++ ": number" ++ Str.nl
  ++ "    }" ++ Str.nl
  ++ Str.nl
  ++ "    If you cannot confidently classify the text (e.g., it's not a news statement, is too short, or is an opinion), classify it as "
  ++ Str.quoted "Unverifiable" ++ "." ++ Str.nl
  ++ "    ".

(** The dict of lines 47-54. *)
Definition payload (text : string) : pyval :=
  PDict [("messages",
          PList [PDict [("role", PStr "user");
                        ("content", PStr (prompt text))]]);
         ("model", PStr "llama3-8b-8192");
         ("temperature", PFloat (float_of_decimal false 1 (-1)));
         ("response_format", PDict [("type", PStr "json_object")])].

(** The dict of lines 69 and 82; its two floats are [0.0]. *)
Definition error_result : pyval :=
  PDict [("prediction", PStr "Error");
         ("real_confidence", PFloat (S754_zero false));
         ("fake_confidence", PFloat (S754_zero false))].

Definition retries : Z := 3.

(** How one pass through the body of the [for] loop ends: with a
    [return], with a [break], or at its end, on to the next pass. *)
Inductive flow : Type :=
| Returned (v : pyval)
| Broke
| Next.

(** The condition of line 64, [result and "choices" in result and
    result["choices"]], as the [if] reads it. *)
Definition has_choices (result : pyval) : M bool :=
  if truthy result then
    present <- lift (contains "choices" result) ;;
    if (present : bool) then
      choices <- lift (getitem result (Key "choices")) ;;
      ret (truthy choices)
    else ret false
  else ret false.

(** The arguments of line 59. *)
Definition api_request (text : string) : request :=
  mkRequest GROQ_API_URL HEADERS (payload text).

(** Lines 60-69 of the [try] block: what is done with the response. *)
Definition read_response (response : response) : M flow :=
  raise_for_status response ;;
  result <- response_json response ;;
  ok <- has_choices result ;;
  if (ok : bool) then
    choices <- lift (getitem result (Key "choices")) ;;
    first <- lift (getitem choices (Index 0)) ;;
    message <- lift (getitem first (Key "message")) ;;
    response_content <- lift (getitem message (Key "content")) ;;
    v <- loads response_content ;;
    ret (Returned v)
  else
    st_error "API response was empty or malformed." ;;
    ret (Returned error_result).

(** The [try] block, lines 59-69. *)
Definition request_once (text : string) : M flow :=
  response <- post (api_request text) ;;
  read_response response.

(** The [except] clauses, lines 71-80, in pass [i] of the loop. *)
Definition on_exception (i : Z) (e : exn) : M flow :=
  match e with
  | HTTPError r =>
      if status_code r =? 429 then
        st_warning ("Rate limit exceeded. Retrying in "
                    ++ Str.of_Z (2 ^ (i + 1)) ++ " seconds...") ;;
        time_sleep (2 ^ (i + 1)) ;;
        ret Next
      else
        st_error ("HTTP error occurred: " ++ exn_str e) ;;
        ret Broke
  | _ =>
      if is_Exception e then
        st_error ("Error calling the Groq API: " ++ exn_str e) ;;
        ret Broke
      else raise e
  end.

(** The body of the loop, lines 58-80. *)
Definition attempt (text : string) (i : Z) : M flow :=
  try_except (request_once text) (on_exception i).

(** [for i in range(i, i + n): body i]; [Some v] when the body
    returned [v], [None] when the loop ended or was broken. *)
Fixpoint for_range (body : Z -> M flow) (n : nat) (i : Z) : M (option pyval) :=
  match n with
  | O => ret None
  | S n' =>
      f <- body i ;;
      match f with
      | Returned v => ret (Some v)
      | Broke => ret None
      | Next => for_range body n' (i + 1)
      end
  end.

Definition classify_text_with_api (text : string) : M pyval :=
  r <- for_range (attempt text) (Z.to_nat retries) 0 ;;
  match r with
  | Some v => ret v
  | None => ret error_result
  end.

(** *** [extract_text_from_url] (lines 86-97) *)

Definition extract_text_from_url (u : string) : M string :=
  try_except
    (t <- article u ;;
     ret (Str.take 2000 t))
    (fun e =>
       if is_Exception e
       then ret ("Error fetching URL: " ++ exn_str e)
       else raise e).

(** *** The page script from its input to the classifier (lines 139-147) *)

Inductive input_type : Type :=
| Text
| URL.

Definition analyze (mode : input_type) (user_input : string) : M pyval :=
  text_to_classify <-
    match mode with
    | URL =>
        t <- extract_text_from_url user_input ;;
        if Str.contains "Error" t
        then st_error t ;; st_stop
        else ret t
    | Text => ret user_input
    end ;;
  classify_text_with_api text_to_classify.

End Program.

(** ** Reading a run *)

Section Observations.
Context {R : Runtime}.
Import Py.

(** The state [s] after the world has moved to [w] and the events
    [evs] have happened. *)
Definition after (s : state) (w : World) (evs : list event) : state :=
  mkState w (log s ++ evs)%list.

(** The sub-expression [result["choices"][0]["message"]["content"]] of
    line 65. *)
Definition first_content (result : pyval) : exn + pyval :=
  match getitem result (Key "choices") with
  | inl e => inl e
  | inr choices =>
      match getitem choices (Index 0) with
      | inl e => inl e
      | inr first =>
          match getitem first (Key "message") with
          | inl e => inl e
          | inr message => getitem message (Key "content")
          end
      end
  end.

(** [v] is what line 66 returns on the response [resp]: the status is no
    error, the body decodes, its first choice holds a string, and that
    string decodes to [v]. *)
Definition decoded_from (resp : response) (v : pyval) : Prop :=
  is_http_error (status_code resp) = false /\
  exists body content,
    json_loads (text resp) = Some body /\
    first_content body = inr (PStr content) /\
    json_loads content = Some v.

(** The endpoint can answer the request for [text] with [resp]. *)
Definition answered (text : string) (resp : response) : Prop :=
  exists w w', requests_post (api_request text) w = (inr resp, w').

(** The message of line 73 in pass [i]. *)
Definition retry_warning (i : Z) : string :=
  "Rate limit exceeded. Retrying in " ++ Str.of_Z (2 ^ (i + 1)) ++ " seconds...".

(** The requests posted, the seconds slept and the warnings shown, in
    order, among the events of a log. *)
Definition posts (l : list event) : list request :=
  flat_map (fun e => match e with Post r => [r] | _ => [] end) l.

Definition sleeps (l : list event) : list Z :=
  flat_map (fun e => match e with Sleep n => [n] | _ => [] end) l.

Definition warnings (l : list event) : list string :=
  flat_map (fun e => match e with StWarning m => [m] | _ => [] end) l.

Definition errors (l : list event) : list string :=
  flat_map (fun e => match e with StError m => [m] | _ => [] end) l.

(** [api_result["prediction"]] as a string, when there is one. *)
Definition prediction_of (v : pyval) : option string :=
  match getitem v (Key "prediction") with
  | inr (PStr p) => Some p
  | _ => None
  end.

Definition one_of (names : list string) (v : option string) : bool :=
  match v with
  | Some p => existsb (String.eqb p) names
  | None => false
  end.


Definition is_number (v : exn + pyval) : bool :=
  match v with
  | inr (PInt _) | inr (PFloat _) => true
  | _ => false
  end.

(** The format that the prompt asks the remote model to follow (lines
    38-42): an object with a prediction among the three labels and two
    numbers. *)
Definition follows_format (v : pyval) : bool :=
  one_of ["True"; "Fake"; "Unverifiable"] (prediction_of v)
  && is_number (getitem v (Key "real_confidence"))
  && is_number (getitem v (Key "fake_confidence")).

End Observations.

(** ** A scripted world

    To run the program: an endpoint that answers its [n]-th request from a
    script, pages whose text is given by a table, the reference decoder. *)

Module Sim.
Import Py.

Definition render (e : exn) : string :=
  match e with
  | HTTPError r => Str.of_Z (status_code r) ++ " Error"
  | RequestException d => d
  | JSONDecodeError _ => "Expecting value"
  | KeyError (Key k) => "'" ++ k ++ "'"
  | KeyError (Index i) => Str.of_Z i
  | IndexError => "index out of range"
  | TypeError => "unsupported operand"
  | ArticleException d => d
  | StopException => EmptyString
  end.

Definition runtime (endpoint : nat -> string + response)
                   (web : string -> string + string) : Runtime :=
  {| World := nat;
     GROQ_API_KEY := "gsk_test";
     requests_post := fun _ n => (endpoint n, S n);
     article_text := fun u n => (web u, n);
     json_loads := Json.loads;
     exn_str := render |}.

(** The start of a run in the world [w]: nothing logged. *)
Definition start {R : Runtime} (w : World) : state := mkState w [].

(** No page can be fetched. *)
Definition offline (u : string) : string + string :=
  inl "Article `download()` failed".

(** A JSON string literal for [s]: quotes and backslashes escaped. *)
Fixpoint escape (s : string) : string :=
  match s with
  | EmptyString => EmptyString
  | String c s' =>
      if Ascii.eqb c "034" || Ascii.eqb c "\"
      then String "\" (String c (escape s'))
      else String c (escape s')
  end.

(** The body of a chat completion whose first choice holds [content]. *)
Definition completion (content : string) : string :=
  "{" ++ Str.quoted "choices" ++ ":[{" ++ Str.quoted "message" ++ ":{"
  ++ Str.quoted "role" ++ ":" ++ Str.quoted "assistant" ++ ","
  ++ Str.quoted "content" ++ ":" ++ Str.quoted (escape content) ++ "}}]}".

(** An object with string and number members, as JSON text. *)
Definition member (k v : string) : string := Str.quoted k ++ ":" ++ v.

(** The reply of the round-trip test. *)
Definition fake_reply : string :=
  "{" ++ member "prediction" (Str.quoted "Fake") ++ ","
  ++ member "real_confidence" "0.1" ++ ","
  ++ member "fake_confidence" "0.9" ++ "}".

(** A reply with a label that the prompt does not offer. *)
Definition satire_reply : string :=
  "{" ++ member "prediction" (Str.quoted "Satire") ++ ","
  ++ member "real_confidence" "0.5" ++ ","
  ++ member "fake_confidence" "0.5" ++ "}".

(** A reply without a prediction. *)
Definition partial_reply : string :=
  "{" ++ member "real_confidence" "0.5" ++ "}".

(** Endpoints: one that always answers with the same response, one that
    never answers. *)
Definition always (r : response) (n : nat) : string + response := inr r.

Definition unreachable (n : nat) : string + response :=
  inl "Connection refused".

(** The worlds of the runs below. *)
Definition busy : Runtime :=
  runtime (always (mkResponse 429 "Too Many Requests")) offline.

Definition broken : Runtime :=
  runtime (always (mkResponse 500 "Internal Server Error")) offline.

Definition down : Runtime := runtime unreachable offline.

Definition html : Runtime :=
  runtime (always (mkResponse 200 "<html>Bad gateway</html>")) offline.

Definition empty : Runtime :=
  runtime (always (mkResponse 200 "{}")) offline.

Definition replying (content : string) : Runtime :=
  runtime (always (mkResponse 200 (completion content))) offline.

Definition fake : Runtime := replying fake_reply.
Definition satire : Runtime := replying satire_reply.
Definition partial : Runtime := replying partial_reply.

(** What [completion content] decodes to. *)
Definition completion_value (content : string) : pyval :=
  PDict [("choices",
          PList [PDict [("message",
                         PDict [("role", PStr "assistant");
                                ("content", PStr content)])]])].

End Sim.

(** ** The page script (lines 131-175)

    What happens when the script runs with the widgets' values at hand:
    the check of the input, the analysis (lines 139-147, [analyze] above)
    and the display of its result. The page's own outputs ([st.success],
    [st.markdown], [st.write], [st.progress]) are kept in a list beside the
    log; in every run they all come after the last event of the log. The
    characters of the script's literals beyond code 255 stand as their
    UTF-8 bytes; nothing in the program looks inside them. *)

Module PyStr.

(** [c.isspace()] for a character below code 256. *)
Definition isspace (c : ascii) : bool :=
  let n := nat_of_ascii c in
  ((9 <=? n) && (n <=? 13) || (28 <=? n) && (n <=? 32)
   || (n =? 133) || (n =? 160))%nat.

(** [s.lstrip()], [s.rstrip()] and [s.strip()]. *)
Fixpoint lstrip (s : string) : string :=
  match s with
  | String c s' => if isspace c then lstrip s' else s
  | EmptyString => EmptyString
  end.

Fixpoint rstrip (s : string) : string :=
  match s with
  | EmptyString => EmptyString
  | String c s' =>
      match rstrip s' with
      | EmptyString => if isspace c then EmptyString else String c EmptyString
      | r => String c r
      end
  end.

Definition strip (s : string) : string := rstrip (lstrip s).

(** The truth value of a string. *)
Definition nonempty (s : string) : bool :=
  match s with
  | EmptyString => false
  | String _ _ => true
  end.

End PyStr.

(** What the page displays besides warnings and errors. *)
Inductive widget : Type :=
| StSuccess (body : string)                       (* st.success(body) *)
| StMarkdown (body : string)                      (* st.markdown(body) *)
| StWrite (body : string)                         (* st.write(body) *)
| StProgress (value : Py.pyval) (text : string).  (* st.progress(value, text=text) *)

(** The exceptions of the page script: those of the program, and those
    that only the display can raise. [FormatError] stands for the
    [ValueError] or [TypeError] of a format specification that does not
    fit its value. *)
Inductive page_exn : Type :=
| Raised (e : Py.exn)
| AttributeError
| FormatError
| StreamlitAPIException.

(** The library calls of the display. [py_str v] is [str(v)] for a value
    that is no string; [format_percent v] is the text of [v] under the
    format specification [.2%], when [v] has one; [progress_accepts v]
    tells whether [st.progress] takes [v] as its value. *)
Class Streamlit : Type := {
  py_str : Py.pyval -> string;
  format_percent : Py.pyval -> option string;
  progress_accepts : Py.pyval -> bool
}.

Section PageMonad.
Context {R : Runtime}.
Import Py.

Record page_state : Type := mkPage {
  core : state;
  shown : list widget
}.

Definition P (A : Type) : Type := page_state -> (page_exn + A) * page_state.

Definition pret {A} (a : A) : P A := fun ps => (inr a, ps).

Definition praise {A} (e : page_exn) : P A := fun ps => (inl e, ps).

Definition pbind {A B} (c : P A) (k : A -> P B) : P B :=
  fun ps =>
    match c ps with
    | (inr a, ps') => k a ps'
    | (inl e, ps') => (inl e, ps')
    end.

(** A computation of the program, run inside the page script. *)
Definition run_core {A} (c : M A) : P A :=
  fun ps =>
    match c (core ps) with
    | (inr a, s') => (inr a, mkPage s' (shown ps))
    | (inl e, s') => (inl (Raised e), mkPage s' (shown ps))
    end.

Definition show (w : widget) : P unit :=
  fun ps => (inr tt, mkPage (core ps) (shown ps ++ [w])%list).

End PageMonad.

Declare Scope page_scope.
Delimit Scope page_scope with page.
Notation "x <- c ;; k" := (pbind c (fun x => k))
  (at level 61, c at next level, right associativity) : page_scope.
Notation "c ;; k" := (pbind c (fun _ => k))
  (at level 61, right associativity) : page_scope.

Section Page.
Context {R : Runtime} {W : Streamlit}.
Import Py.
Local Open Scope page_scope.

(** [f"{v}"]: a string as it is, another value through [str]. *)
Definition fstr (v : pyval) : string :=
  match v with
  | PStr s => s
  | _ => py_str v
  end.

(** [f"{v:.2%}"]. *)
Definition fpercent (v : pyval) : P string :=
  match format_percent v with
  | Some t => pret t
  | None => praise FormatError
  end.

(** [st.progress(v, text=t)]. *)
Definition st_progress (v : pyval) (t : string) : P unit :=
  if progress_accepts v then show (StProgress v t)
  else praise StreamlitAPIException.

(** [v.get(k, default)]: only a dict has the method. *)
Definition get (v : pyval) (k : string) (default : pyval) : P pyval :=
  match v with
  | PDict d =>
      match dict_get k d with
      | Some x => pret x
      | None => pret default
      end
  | _ => praise AttributeError
  end.

(** [v is not None]. *)
Definition is_not_None (v : pyval) : bool :=
  match v with
  | PNone => false
  | _ => true
  end.

(** Lines 164-169. *)
Definition show_verdict (prediction : pyval) : P unit :=
  if eq_str "True" prediction then
    show (StMarkdown "This content is likely to be **REAL NEWS**.")
  else if eq_str "Fake" prediction then
    show (StMarkdown "This content is likely to be **FAKE NEWS**.")
  else if eq_str "Unverifiable" prediction then
    show (StMarkdown "Unable to make a definitive prediction.")
  else pret tt.

(** Lines 171-175. *)
Definition show_confidence (real_prob fake_prob : pyval) : P unit :=
  if is_not_None real_prob && is_not_None fake_prob then
    show (StMarkdown "---") ;;
    show (StMarkdown "### Confidence Levels") ;;
    real_text <- fpercent real_prob ;;
    st_progress real_prob ("Real News Confidence: " ++ real_text) ;;
    fake_text <- fpercent fake_prob ;;
    st_progress fake_prob ("Fake News Confidence: " ++ fake_text)
  else pret tt.

(** Lines 149-175: the display of [api_result]. [url_to_display] is
    [None] in text mode (line 123) and the input in URL mode (line 129). *)
Definition render (url_to_display : option string) (api_result : pyval)
  : P unit :=
  p <- run_core (lift (getitem api_result (Key "prediction"))) ;;
  if eq_str "Error" p then
    run_core (st_error "Could not get a valid response from the API.")
  else
    prediction <- get api_result "prediction" (PStr "N/A") ;;
    real_prob <- get api_result "real_confidence" (PFloat (S754_zero false)) ;;
    fake_prob <- get api_result "fake_confidence" (PFloat (S754_zero false)) ;;
    show (StSuccess "✅ Analysis complete!") ;;
    show (StMarkdown "---") ;;
    match url_to_display with
    | Some u =>
        if PyStr.nonempty u
        then show (StMarkdown ("**URL Analyzed:** [" ++ u ++ "](" ++ u ++ ")"))
        else pret tt
    | None => pret tt
    end ;;
    show (StWrite ("**Prediction:** " ++ fstr prediction)) ;;
    show_verdict prediction ;;
    show_confidence real_prob fake_prob.

(** Lines 123 and 129. *)
Definition url_to_display (mode : input_type) (user_input : string)
  : option string :=
  match mode with
  | Text => None
  | URL => Some user_input
  end.

(** Lines 134-175: the right column, with the radio's choice, the input
    field's text and the button's state. *)
Definition on_analyze (mode : input_type) (user_input : string)
                      (analyze_button : bool) : P unit :=
  if analyze_button then
    if negb (PyStr.nonempty user_input)
       || negb (PyStr.nonempty (PyStr.strip user_input))
    then
      run_core (st_warning "⚠️ Please provide text or a URL to analyze.")
    else
      api_result <- run_core (analyze mode user_input) ;;
      render (url_to_display mode user_input) api_result
  else pret tt.

End Page.

(** ** Reading a page run *)

Section PageObservations.
Context {R : Runtime}.
Import Py.

(** The three events of a pass that was answered 429, for [k] passes
    from pass [i] on. *)
Fixpoint retry_events (rq : request) (k : nat) (i : Z) : list event :=
  match k with
  | O => []
  | S k' =>
      [Post rq; StWarning (retry_warning i); Sleep (2 ^ (i + 1))]
      ++ retry_events rq k' (i + 1)
  end%list.

Definition downloads (l : list event) : list string :=
  flat_map (fun e => match e with Download u => [u] | _ => [] end) l.

Definition is_prefix {A} (l m : list A) : Prop := exists rest, m = (l ++ rest)%list.

(** The endpoint answers 429 to [k] requests in a row, which take the
    world from [w] to [w']. *)
Inductive limited (rq : request) : nat -> World -> World -> Prop :=
| limited_O w : limited rq O w w
| limited_S k w w1 w' resp :
    requests_post rq w = (inr resp, w1) ->
    status_code resp = 429 ->
    limited rq k w1 w' ->
    limited rq (S k) w w'.

(** Every character of [s] is white space. *)
Fixpoint all_space (s : string) : bool :=
  match s with
  | EmptyString => true
  | String c s' => PyStr.isspace c && all_space s'
  end.

(** The page state [ps] after the program moved to the world [w] with the
    events [evs], and the page displayed [ws]. *)
Definition page_after (ps : page_state) (w : World) (evs : list event)
                      (ws : list widget) : page_state :=
  mkPage (after (core ps) w evs) (shown ps ++ ws)%list.

(** What lines 153 and 154 read: the value under [k], or [0.0]. *)
Definition confidence (k : string) (d : list (string * pyval)) : pyval :=
  match dict_get k d with
  | Some x => x
  | None => PFloat (S754_zero false)
  end.

(** What the page displays before the confidence levels (lines 156-169). *)
Definition heading : list widget :=
  [StSuccess "✅ Analysis complete!"; StMarkdown "---"].

(** The sentence that lines 164-169 display for a prediction. *)
Definition verdict (prediction : pyval) : list widget :=
  if eq_str "True" prediction then
    [StMarkdown "This content is likely to be **REAL NEWS**."]
  else if eq_str "Fake" prediction then
    [StMarkdown "This content is likely to be **FAKE NEWS**."]
  else if eq_str "Unverifiable" prediction then
    [StMarkdown "Unable to make a definitive prediction."]
  else [].

(** The line that line 160 displays. *)
Definition url_line (u : option string) : list widget :=
  match u with
  | Some (String c r) =>
      [StMarkdown ("**URL Analyzed:** [" ++ String c r ++ "](" ++ String c r ++ ")")]
  | _ => []
  end.

End PageObservations.

(** ** A scripted page *)

Module SimPage.
Import Py.

(** [n] to the nearest integer of [num / den], ties to even;
    [0 <= num], [0 < den]. *)
Definition round_half_even (num den : Z) : Z :=
  let q := num / den in
  let r := num mod den in
  if 2 * r <? den then q
  else if den <? 2 * r then q + 1
  else if Z.even q then q else q + 1.

(** Two decimal digits. *)
Definition two_digits (n : Z) : string :=
  (if n <? 10 then "0" else EmptyString) ++ Str.of_Z n.

(** The text of a count of hundredths of a percent. *)
Definition percent_text (neg : bool) (hundredths : Z) : string :=
  (if neg then "-" else EmptyString)
  ++ Str.of_Z (hundredths / 100) ++ "." ++ two_digits (hundredths mod 100) ++ "%".

(** A float under [.2%]: the float times 100, as a float, then its
    exact value rounded to two decimals. *)
Definition percent_of_float (x : pyfloat) : string :=
  match SFmul prec emax x (float_of_decimal false 100 0) with
  | S754_zero neg => percent_text neg 0
  | S754_infinity neg => if neg then "-inf%" else "inf%"
  | S754_nan => "nan%"
  | S754_finite neg m e =>
      if 0 <=? e
      then percent_text neg (Z.pos m * 2 ^ e * 100)
      else percent_text neg (round_half_even (Z.pos m * 100) (2 ^ (- e)))
  end.

(** Numbers have a text under [.2%], an integer through the float it
    converts to (exactly, below 2^53 in absolute value); nothing else
    has. *)
Definition percent (v : pyval) : option string :=
  match v with
  | PFloat x => Some (percent_of_float x)
  | PInt n =>
      if Z.abs n <? 2 ^ 53
      then Some (percent_of_float (binary_normalize prec emax n 0 false))
      else None
  | PBool b =>
      Some (percent_of_float
              (binary_normalize prec emax (if b then 1 else 0) 0 false))
  | _ => None
  end.

(** [st.progress] takes an integer from 0 to 100 and a float from 0.0 to
    1.0. *)
Definition accepts (v : pyval) : bool :=
  match v with
  | PInt n => (0 <=? n) && (n <=? 100)
  | PBool _ => true
  | PFloat x =>
      SFleb (S754_zero false) x && SFleb x (float_of_decimal false 1 0)
  | _ => false
  end.

Definition widgets : Streamlit :=
  {| py_str := fun _ => "<object>";
     format_percent := percent;
     progress_accepts := accepts |}.

(** A page on which nothing happened yet. *)
Definition blank_page {R : Runtime} (w : World) : page_state :=
  mkPage (Sim.start w) [].

(** An endpoint that answers 429 to its first [k] requests and [r] to the
    others. *)
Definition limited_then (k : nat) (r : string + response) (n : nat)
  : string + response :=
  if (n <? k)%nat then inr (mkResponse 429 "Too Many Requests") else r.

(** Rate limited once, then the reply of the round-trip test. *)
Definition flaky : Runtime :=
  Sim.runtime
    (limited_then 1 (inr (mkResponse 200 (Sim.completion Sim.fake_reply))))
    Sim.offline.

(** Rate limited twice, then out of order. *)
Definition flaky_then_broken : Runtime :=
  Sim.runtime
    (limited_then 2 (inr (mkResponse 503 "Service Unavailable")))
    Sim.offline.

(** A completion whose first choice has no message. *)
Definition headless : Runtime :=
  Sim.runtime
    (Sim.always (mkResponse 200
       ("{" ++ Str.quoted "choices" ++ ":[{" ++ Str.quoted "index" ++ ":0}]}")))
    Sim.offline.

(** Pages of 5 and of 2005 characters. *)
Definition short_page : string := "Hello".
Definition long_page : string :=
  string_of_list_ascii (repeat "a"%char 2005).

Definition web (u : string) : string + string :=
  if String.eqb u "short" then inr short_page else inr long_page.

Definition online : Runtime :=
  Sim.runtime (Sim.always (mkResponse 200 (Sim.completion Sim.fake_reply))) web.

(** An article that has the word Error behind its first 2000 characters
    only, and a world whose every page is that article. *)
Definition filler : string := string_of_list_ascii (repeat "a"%char 2000).
Definition late_error_page : string := filler ++ "Error".

Definition late_error : Runtime :=
  Sim.runtime (Sim.always (mkResponse 200 (Sim.completion Sim.fake_reply)))
    (fun _ => inr late_error_page).

End SimPage.

(** * Properties *)

(** ** Strings *)

Section StringFacts.

Lemma take_length (n : nat) (s : string) :
  (String.length (Str.take n s) <= n)%nat.
Proof.
  revert s; induction n as [|n IH]; intros [|c s]; simpl; try lia.
  specialize (IH s); lia.
Qed.

Lemma take_prefix (n : nat) (s : string) :
  exists rest, s = Str.take n s ++ rest.
Proof.
  revert s; induction n as [|n IH]; intros s.
  - exists s. destruct s; reflexivity.
  - destruct s as [|c s].
    + exists EmptyString. reflexivity.
    + destruct (IH s) as [rest E]. exists rest. simpl. now rewrite <- E.
Qed.

Lemma starts_with_iff (p s : string) :
  Str.starts_with p s = true <-> exists rest, s = p ++ rest.
Proof.
  revert s; induction p as [|a p IH]; intros s; simpl.
  - split; [intros _; now exists s | reflexivity].
  - destruct s as [|b s].
    + split; [discriminate | intros [rest E]; discriminate].
    + rewrite andb_true_iff, Ascii.eqb_eq, IH. split.
      * intros [-> [rest ->]]. now exists rest.
      * intros [rest E]. injection E as -> ->. split; [reflexivity | now exists rest].
Qed.

(** [Str.contains] is the substring test. *)
Lemma contains_iff (p s : string) :
  Str.contains p s = true <-> exists a b, s = a ++ p ++ b.
Proof.
  induction s as [|c s IH].
  - simpl. rewrite orb_false_r, starts_with_iff. split.
    + intros [rest E]. now exists EmptyString, rest.
    + intros [[|x a] [b E]]; [now exists b | discriminate].
  - cbn [Str.contains]. rewrite orb_true_iff, starts_with_iff, IH. split.
    + intros [[rest E] | [a [b E]]].
      * now exists EmptyString, rest.
      * exists (String c a), b. simpl. now rewrite E.
    + intros [[|x a] [b E]].
      * left. now exists b.
      * right. injection E as -> E. now exists a, b.
Qed.

End StringFacts.

(** ** The steps of one pass *)

Section Steps.
Context {R : Runtime}.
Import Py.
Local Open Scope py_scope.

Lemma after_after (s : state) (w w' : World) (e e' : list event) :
  after (after s w e) w' e' = after s w' (e ++ e')%list.
Proof. unfold after; simpl. now rewrite <- app_assoc. Qed.

Lemma emit_run (e : event) (s : state) :
  emit e s = (inr tt, after s (world s) [e]).
Proof. reflexivity. Qed.

Lemma post_run (rq : request) (s : state) r w :
  requests_post rq (world s) = (r, w) ->
  post rq s =
  (match r with
   | inr resp => inr resp
   | inl descr => inl (RequestException descr)
   end, after s w [Post rq]).
Proof. intros E. unfold post. rewrite E. now destruct r. Qed.

(** Subscripting and membership never stop the script. *)
Lemma getitem_raises v k e : getitem v k = inl e -> is_Exception e = true.
Proof.
  destruct v, k; simpl; try (intros [= <-]; reflexivity);
    repeat (match goal with |- context [match ?x with _ => _ end] => destruct x end;
            try discriminate); intros [= <-]; reflexivity.
Qed.

Lemma contains_raises x v e : contains x v = inl e -> is_Exception e = true.
Proof. destruct v; simpl; try discriminate; intros [= <-]; reflexivity. Qed.

(** Line 64 reads its operands and changes nothing. *)
Lemma has_choices_state v s : snd (has_choices v s) = s.
Proof.
  unfold has_choices, bind, lift, ret.
  destruct (truthy v); [|reflexivity].
  destruct (contains "choices" v) as [e|[|]]; try reflexivity.
  destruct (getitem v (Key "choices")); reflexivity.
Qed.

Lemma has_choices_raises v s e s' :
  has_choices v s = (inl e, s') -> is_Exception e = true.
Proof.
  unfold has_choices, bind, lift, ret.
  destruct (truthy v); [|discriminate].
  destruct (contains "choices" v) as [e0|[|]] eqn:C; try discriminate.
  - intros [= <- _]. eapply contains_raises; eauto.
  - destruct (getitem v (Key "choices")) eqn:G; try discriminate.
    intros [= <- _]. eapply getitem_raises; eauto.
Qed.

Lemma has_choices_falsy v s :
  truthy v = false -> has_choices v s = (inr false, s).
Proof. intros E. unfold has_choices. now rewrite E. Qed.

Lemma has_choices_dict d s :
  has_choices (PDict d) s =
  (inr match dict_get "choices" d with
       | Some choices => truthy choices
       | None => false
       end, s).
Proof.
  unfold has_choices, bind, lift, ret. simpl.
  destruct d as [|[k v] d]; [reflexivity|].
  destruct (dict_get "choices" ((k, v) :: d)); reflexivity.
Qed.

Lemma has_choices_true v s s' :
  has_choices v s = (inr true, s') ->
  exists choices, getitem v (Key "choices") = inr choices /\ truthy choices = true.
Proof.
  unfold has_choices, bind, lift, ret.
  destruct (truthy v); [|discriminate].
  destruct (contains "choices" v) as [e0|[|]]; try discriminate.
  destruct (getitem v (Key "choices")) as [e0|choices]; try discriminate.
  intros [= E _]. now exists choices.
Qed.

Lemma first_content_has_choices v c s :
  first_content v = inr c -> has_choices v s = (inr true, s).
Proof.
  unfold first_content.
  destruct v; simpl; try discriminate.
  rewrite has_choices_dict.
  destruct (dict_get "choices" items) as [choices|]; [|discriminate].
  destruct (getitem choices (Index 0)) as [e|first] eqn:G; [discriminate|].
  intros _. destruct choices; simpl in G; try discriminate.
  - destruct s0; [discriminate | reflexivity].
  - destruct items0; [discriminate | reflexivity].
Qed.

(** Lines 65-66 on a body that passed line 64. *)
Lemma loads_run c s :
  loads c s =
  (match c with
   | PStr content =>
       match json_loads content with
       | Some v => inr v
       | None => inl (JSONDecodeError content)
       end
   | _ => inl TypeError
   end, s).
Proof. destruct c; try reflexivity. simpl. now destruct (json_loads s0). Qed.

Lemma request_once_run text s r w :
  requests_post (api_request text) (world s) = (r, w) ->
  request_once text s =
  match r with
  | inl descr => (inl (RequestException descr), after s w [Post (api_request text)])
  | inr resp => read_response resp (after s w [Post (api_request text)])
  end.
Proof.
  intros E. unfold request_once, bind. rewrite (post_run _ _ _ _ E).
  now destruct r.
Qed.

Lemma read_response_http_error resp s :
  is_http_error (status_code resp) = true ->
  read_response resp s = (inl (HTTPError resp), s).
Proof.
  intros E. unfold read_response, bind, raise_for_status. now rewrite E.
Qed.

Lemma read_response_undecodable resp s :
  is_http_error (status_code resp) = false ->
  json_loads (text resp) = None ->
  read_response resp s = (inl (JSONDecodeError (text resp)), s).
Proof.
  intros E J. unfold read_response, bind, raise_for_status, response_json.
  rewrite E. simpl. now rewrite J.
Qed.

Lemma read_response_body resp body s :
  is_http_error (status_code resp) = false ->
  json_loads (text resp) = Some body ->
  read_response resp s =
  (ok <- has_choices body ;;
   if (ok : bool) then
     choices <- lift (getitem body (Key "choices")) ;;
     first <- lift (getitem choices (Index 0)) ;;
     message <- lift (getitem first (Key "message")) ;;
     response_content <- lift (getitem message (Key "content")) ;;
     v <- loads response_content ;;
     ret (Returned v)
   else
     st_error "API response was empty or malformed." ;;
     ret (Returned error_result)) s.
Proof.
  intros E J. unfold read_response, raise_for_status, response_json.
  rewrite E, J. reflexivity.
Qed.

Lemma read_response_no_choices resp body s :
  is_http_error (status_code resp) = false ->
  json_loads (text resp) = Some body ->
  has_choices body s = (inr false, s) ->
  read_response resp s =
  (inr (Returned error_result),
   after s (world s) [StError "API response was empty or malformed."]).
Proof.
  intros E J H. rewrite (read_response_body _ _ _ E J).
  unfold bind at 1. rewrite H. reflexivity.
Qed.

Lemma read_response_content resp body c s :
  is_http_error (status_code resp) = false ->
  json_loads (text resp) = Some body ->
  first_content body = inr c ->
  read_response resp s =
  (match c with
   | PStr content =>
       match json_loads content with
       | Some v => inr (Returned v)
       | None => inl (JSONDecodeError content)
       end
   | _ => inl TypeError
   end, s).
Proof.
  intros E J F. rewrite (read_response_body _ _ _ E J).
  unfold bind at 1. rewrite (first_content_has_choices _ _ _ F).
  unfold first_content in F. unfold bind, lift.
  destruct (getitem body (Key "choices")) as [?|choices]; [discriminate|].
  destruct (getitem choices (Index 0)) as [?|first]; [discriminate|].
  destruct (getitem first (Key "message")) as [?|message]; [discriminate|].
  rewrite F, loads_run.
  destruct c; try reflexivity. now destruct (json_loads s0).
Qed.

(** Every way the [try] block can end once a response has arrived: with
    an exception that line 78 catches, with the error result of line 69,
    or with the value decoded at line 66. *)
Lemma read_response_cases resp s x s' :
  read_response resp s = (x, s') ->
  (exists e, x = inl e /\ is_Exception e = true /\ s' = s)
  \/ (x = inr (Returned error_result) /\
      s' = after s (world s) [StError "API response was empty or malformed."])
  \/ (exists v, x = inr (Returned v) /\ s' = s /\ decoded_from resp v).
Proof.
  destruct (is_http_error (status_code resp)) eqn:E.
  { rewrite (read_response_http_error _ _ E). intros [= <- <-].
    left. now eexists. }
  destruct (json_loads (text resp)) as [body|] eqn:J.
  2:{ rewrite (read_response_undecodable _ _ E J). intros [= <- <-].
      left. now eexists. }
  destruct (has_choices body s) as [[e|[|]] s1] eqn:H;
    pose proof (has_choices_state body s) as Hs; rewrite H in Hs;
    simpl in Hs; subst s1.
  - rewrite (read_response_body _ _ _ E J). unfold bind at 1. rewrite H.
    intros [= <- <-]. left. eexists. repeat split.
    eapply has_choices_raises; eauto.
  - destruct (first_content body) as [e|c] eqn:F.
    + rewrite (read_response_body _ _ _ E J). unfold bind at 1. rewrite H.
      unfold first_content in F. unfold bind, lift.
      destruct (getitem body (Key "choices")) as [e1|choices] eqn:G1.
      { intros [= <- <-]. left. eexists. repeat split.
        eapply getitem_raises; eauto. }
      destruct (getitem choices (Index 0)) as [e2|first] eqn:G2.
      { intros [= <- <-]. left. eexists. repeat split.
        eapply getitem_raises; eauto. }
      destruct (getitem first (Key "message")) as [e3|message] eqn:G3.
      { intros [= <- <-]. left. eexists. repeat split.
        eapply getitem_raises; eauto. }
      rewrite F. intros [= <- <-]. left. eexists. repeat split.
      eapply getitem_raises; eauto.
    + rewrite (read_response_content _ _ _ _ E J F).
      destruct c; try (intros [= <- <-]; left; now eexists).
      destruct (json_loads s0) as [v|] eqn:L; intros [= <- <-].
      * right. right. exists v. repeat split; trivial.
        now exists body, s0.
      * left. now eexists.
  - rewrite (read_response_no_choices _ _ _ E J H). intros [= <- <-].
    right. left. now split.
Qed.

End Steps.

(** ** One pass through the loop *)

Section Attempt.
Context {R : Runtime}.
Import Py.
Local Open Scope py_scope.

Variable text : string.

(** The handlers catch whatever derives from [Exception], and end the
    pass by going on (after a 429) or by breaking. *)
Lemma on_exception_429 i resp s :
  status_code resp = 429 ->
  on_exception i (HTTPError resp) s =
  (inr Next, after s (world s) [StWarning (retry_warning i); Sleep (2 ^ (i + 1))]).
Proof.
  intros E. unfold on_exception. rewrite E. simpl.
  unfold bind, st_warning, time_sleep, ret. rewrite !emit_run, after_after.
  reflexivity.
Qed.

Lemma on_exception_http i resp s :
  status_code resp <> 429 ->
  on_exception i (HTTPError resp) s =
  (inr Broke,
   after s (world s) [StError ("HTTP error occurred: " ++ exn_str (HTTPError resp))]).
Proof.
  intros E. unfold on_exception.
  destruct (Z.eqb_spec (status_code resp) 429) as [|_]; [contradiction|].
  reflexivity.
Qed.

Lemma on_exception_other i e s :
  is_Exception e = true ->
  (forall resp, e <> HTTPError resp) ->
  on_exception i e s =
  (inr Broke,
   after s (world s) [StError ("Error calling the Groq API: " ++ exn_str e)]).
Proof.
  intros E N. destruct e; try discriminate; try reflexivity.
  now elim (N r).
Qed.

Lemma on_exception_total i e s :
  is_Exception e = true ->
  exists f evs,
    on_exception i e s = (inr f, after s (world s) evs) /\
    posts evs = [] /\ (f = Next \/ f = Broke).
Proof.
  intros E. destruct e; try discriminate;
    try (eexists _, _; split;
         [apply on_exception_other; [reflexivity | discriminate]
         | split; [reflexivity | now right]]).
  destruct (Z.eq_dec (status_code r) 429) as [C|C].
  - eexists _, _. split; [apply on_exception_429; exact C|].
    split; [reflexivity | now left].
  - eexists _, _. split; [apply on_exception_http; exact C|].
    split; [reflexivity | now right].
Qed.

(** *** The pass, by what the endpoint did *)

Lemma attempt_transport_failure i s descr w :
  requests_post (api_request text) (world s) = (inl descr, w) ->
  attempt text i s =
  (inr Broke,
   after s w [Post (api_request text);
              StError ("Error calling the Groq API: "
                       ++ exn_str (RequestException descr))]).
Proof.
  intros E. unfold attempt, try_except.
  rewrite (request_once_run _ _ _ _ E).
  rewrite on_exception_other by (reflexivity || discriminate).
  now rewrite after_after.
Qed.

Lemma attempt_rate_limited i s resp w :
  requests_post (api_request text) (world s) = (inr resp, w) ->
  status_code resp = 429 ->
  attempt text i s =
  (inr Next,
   after s w [Post (api_request text); StWarning (retry_warning i); Sleep (2 ^ (i + 1))]).
Proof.
  intros E C. unfold attempt, try_except.
  rewrite (request_once_run _ _ _ _ E), read_response_http_error
    by (rewrite C; reflexivity).
  rewrite (on_exception_429 _ _ _ C). now rewrite after_after.
Qed.

Lemma attempt_http_error i s resp w :
  requests_post (api_request text) (world s) = (inr resp, w) ->
  is_http_error (status_code resp) = true ->
  status_code resp <> 429 ->
  attempt text i s =
  (inr Broke,
   after s w [Post (api_request text);
              StError ("HTTP error occurred: " ++ exn_str (HTTPError resp))]).
Proof.
  intros E H C. unfold attempt, try_except.
  rewrite (request_once_run _ _ _ _ E), (read_response_http_error _ _ H).
  rewrite (on_exception_http _ _ _ C). now rewrite after_after.
Qed.

Lemma attempt_undecodable_body i s resp w :
  requests_post (api_request text) (world s) = (inr resp, w) ->
  is_http_error (status_code resp) = false ->
  json_loads (Py.text resp) = None ->
  attempt text i s =
  (inr Broke,
   after s w [Post (api_request text);
              StError ("Error calling the Groq API: "
                       ++ exn_str (JSONDecodeError (Py.text resp)))]).
Proof.
  intros E H J. unfold attempt, try_except.
  rewrite (request_once_run _ _ _ _ E), (read_response_undecodable _ _ H J).
  rewrite on_exception_other by (reflexivity || discriminate).
  now rewrite after_after.
Qed.

Lemma attempt_no_choices i s resp w body :
  requests_post (api_request text) (world s) = (inr resp, w) ->
  is_http_error (status_code resp) = false ->
  json_loads (Py.text resp) = Some body ->
  (forall s1, has_choices body s1 = (inr false, s1)) ->
  attempt text i s =
  (inr (Returned error_result),
   after s w [Post (api_request text); StError "API response was empty or malformed."]).
Proof.
  intros E H J C. unfold attempt, try_except.
  rewrite (request_once_run _ _ _ _ E).
  rewrite (read_response_no_choices _ _ _ H J (C _)).
  now rewrite after_after.
Qed.

Lemma attempt_decoded i s resp w body content v :
  requests_post (api_request text) (world s) = (inr resp, w) ->
  is_http_error (status_code resp) = false ->
  json_loads (Py.text resp) = Some body ->
  first_content body = inr (PStr content) ->
  json_loads content = Some v ->
  attempt text i s = (inr (Returned v), after s w [Post (api_request text)]).
Proof.
  intros E H J F L. unfold attempt, try_except.
  rewrite (request_once_run _ _ _ _ E).
  rewrite (read_response_content _ _ _ _ H J F), L. reflexivity.
Qed.

Lemma attempt_undecodable_content i s resp w body c :
  requests_post (api_request text) (world s) = (inr resp, w) ->
  is_http_error (status_code resp) = false ->
  json_loads (Py.text resp) = Some body ->
  first_content body = inr c ->
  (forall content, c = PStr content -> json_loads content = None) ->
  exists msg,
    attempt text i s = (inr Broke, after s w [Post (api_request text); StError msg]).
Proof.
  intros E H J F L. unfold attempt, try_except.
  rewrite (request_once_run _ _ _ _ E).
  rewrite (read_response_content _ _ _ _ H J F).
  destruct c; try (rewrite on_exception_other by (reflexivity || discriminate);
                   rewrite after_after; now eexists).
  rewrite (L _ eq_refl).
  rewrite on_exception_other by (reflexivity || discriminate).
  rewrite after_after. now eexists.
Qed.

(** *** The pass in general *)

(** A pass never raises: it returns the error result or a decoded
    value, breaks, or goes on; and it posts exactly one request. *)
Lemma attempt_cases i s :
  exists f evs w,
    attempt text i s = (inr f, after s w (Post (api_request text) :: evs)) /\
    posts evs = [] /\
    match f with
    | Returned v =>
        v = error_result \/ exists resp, answered text resp /\ decoded_from resp v
    | _ => True
    end.
Proof.
  destruct (requests_post (api_request text) (world s)) as [[descr|resp] w] eqn:E.
  { eexists _, _, w. split; [apply (attempt_transport_failure _ _ _ _ E)|].
    now split. }
  unfold attempt, try_except. rewrite (request_once_run _ _ _ _ E).
  destruct (read_response resp (after s w [Post (api_request text)]))
    as [x s1] eqn:RR.
  destruct (read_response_cases _ _ _ _ RR)
    as [(e & -> & Ex & ->) | [(-> & ->) | (v & -> & -> & D)]].
  - destruct (on_exception_total i e (after s w [Post (api_request text)]) Ex)
      as (f & evs & -> & Hp & Hf).
    exists f, evs, w. rewrite after_after. simpl. split; [reflexivity|].
    split; [exact Hp | destruct Hf as [-> | ->]; exact I].
  - eexists _, _, w. rewrite after_after. simpl. split; [reflexivity|].
    split; [reflexivity | now left].
  - exists (Returned v), [], w. split; [reflexivity|]. split; [reflexivity|].
    right. exists resp. split; [|exact D]. now exists (world s), w.
Qed.

End Attempt.

(** ** The loop and the function *)

Section Loop.
Context {R : Runtime}.
Import Py.
Local Open Scope py_scope.

Lemma for_range_returned body n i s v s' :
  body i s = (inr (Returned v), s') ->
  for_range body (S n) i s = (inr (Some v), s').
Proof. intros E. simpl. unfold bind. now rewrite E. Qed.

Lemma for_range_broke body n i s s' :
  body i s = (inr Broke, s') ->
  for_range body (S n) i s = (inr None, s').
Proof. intros E. simpl. unfold bind. now rewrite E. Qed.

Lemma for_range_next body n i s s' :
  body i s = (inr Next, s') ->
  for_range body (S n) i s = for_range body n (i + 1) s'.
Proof. intros E. simpl. unfold bind. now rewrite E. Qed.

(** The loop never raises, posts at most one request for each pass, and
    returns only the error result or a decoded value. *)
Lemma for_range_cases text n i s :
  exists r evs w,
    for_range (attempt text) n i s = (inr r, after s w evs) /\
    (List.length (posts evs) <= n)%nat /\
    match r with
    | Some v =>
        v = error_result \/ exists resp, answered text resp /\ decoded_from resp v
    | None => True
    end.
Proof.
  revert i s. induction n as [|n IH]; intros i s.
  - exists None, [], (world s). unfold after. rewrite app_nil_r.
    destruct s. simpl. repeat split. lia.
  - destruct (attempt_cases text i s) as (f & evs & w & E & P & C).
    destruct f as [v| |].
    + exists (Some v), (Post (api_request text) :: evs), w.
      rewrite (for_range_returned _ _ _ _ _ _ E). simpl. rewrite P.
      repeat split; trivial. simpl; lia.
    + exists None, (Post (api_request text) :: evs), w.
      rewrite (for_range_broke _ _ _ _ _ E). simpl. rewrite P.
      repeat split; trivial. simpl; lia.
    + rewrite (for_range_next _ _ _ _ _ E).
      destruct (IH (i + 1) (after s w (Post (api_request text) :: evs)))
        as (r & evs' & w' & E' & P' & C').
      exists r, ((Post (api_request text) :: evs) ++ evs')%list, w'.
      rewrite E', after_after. split; [reflexivity|]. split; [|exact C'].
      unfold posts in *. rewrite flat_map_app, length_app. simpl.
      rewrite P. simpl. lia.
Qed.

Lemma classify_run text s r s' :
  for_range (attempt text) 3 0 s = (inr r, s') ->
  classify_text_with_api text s =
  (inr match r with Some v => v | None => error_result end, s').
Proof.
  intros E. unfold classify_text_with_api, bind.
  change (Z.to_nat retries) with 3%nat. rewrite E. now destruct r.
Qed.

Lemma classify_returned text s v s' :
  attempt text 0 s = (inr (Returned v), s') ->
  classify_text_with_api text s = (inr v, s').
Proof.
  intros E. now rewrite (classify_run _ _ _ _ (for_range_returned _ 2 _ _ _ _ E)).
Qed.

Lemma classify_broke text s s' :
  attempt text 0 s = (inr Broke, s') ->
  classify_text_with_api text s = (inr error_result, s').
Proof.
  intros E. now rewrite (classify_run _ _ _ _ (for_range_broke _ 2 _ _ _ E)).
Qed.

(** The function returns to its caller whatever the endpoint does. *)
Lemma classify_total text s :
  exists v evs w,
    classify_text_with_api text s = (inr v, after s w evs) /\
    (List.length (posts evs) <= 3)%nat /\
    (v = error_result \/ exists resp, answered text resp /\ decoded_from resp v).
Proof.
  destruct (for_range_cases text 3 0 s) as (r & evs & w & E & P & C).
  rewrite (classify_run _ _ _ _ E).
  exists (match r with Some v => v | None => error_result end), evs, w.
  split; [reflexivity|]. split; [exact P|].
  destruct r; [exact C | now left].
Qed.

(** An endpoint that answers 429 every time: three passes, each with
    its request, its warning and its sleep. *)
Lemma rate_limited_run text s :
  (forall rq w, exists resp w',
      requests_post rq w = (inr resp, w') /\ status_code resp = 429) ->
  exists w',
    classify_text_with_api text s =
    (inr error_result,
     after s w'
       [Post (api_request text); StWarning (retry_warning 0); Sleep 2;
        Post (api_request text); StWarning (retry_warning 1); Sleep 4;
        Post (api_request text); StWarning (retry_warning 2); Sleep 8]).
Proof.
  intros H.
  destruct (H (api_request text) (world s)) as (r1 & w1 & E1 & C1).
  pose proof (attempt_rate_limited text 0 s r1 w1 E1 C1) as A1.
  set (s1 := after s w1 _) in A1.
  destruct (H (api_request text) (world s1)) as (r2 & w2 & E2 & C2).
  pose proof (attempt_rate_limited text 1 s1 r2 w2 E2 C2) as A2.
  set (s2 := after s1 w2 _) in A2.
  destruct (H (api_request text) (world s2)) as (r3 & w3 & E3 & C3).
  pose proof (attempt_rate_limited text 2 s2 r3 w3 E3 C3) as A3.
  exists w3.
  erewrite classify_run.
  2:{ rewrite (for_range_next _ _ _ _ _ A1). simpl (0 + 1).
      rewrite (for_range_next _ _ _ _ _ A2). simpl (1 + 1).
      rewrite (for_range_next _ _ _ _ _ A3). reflexivity. }
  subst s2 s1. rewrite !after_after. reflexivity.
Qed.

(** *** The article fetch *)

Lemma extract_run u s r w :
  article_text u (world s) = (r, w) ->
  extract_text_from_url u s =
  (inr match r with
       | inr t => Str.take 2000 t
       | inl descr => "Error fetching URL: " ++ exn_str (ArticleException descr)
       end,
   after s w [Download u]).
Proof.
  intros E. unfold extract_text_from_url, try_except, bind, article.
  rewrite E. now destruct r.
Qed.

End Loop.

(** * The specification's claims *)

Section Claims.
Context {R : Runtime}.
Import Py.
Local Open Scope py_scope.


(** C2: when the endpoint answers 429 to every request, the function
    posts exactly three requests, each followed by a warning and a
    sleep, of 2, 4 and 8 seconds, and returns the error result. *)
Theorem rate_limited_three_attempts (text : string) (s : state) :
  (forall rq w, exists resp w',
      requests_post rq w = (inr resp, w') /\ status_code resp = 429) ->
  exists s' evs,
    classify_text_with_api text s = (inr error_result, s') /\
    log s' = (log s ++ evs)%list /\
    evs = [Post (api_request text);
           StWarning "Rate limit exceeded. Retrying in 2 seconds..."; Sleep 2;
           Post (api_request text);
           StWarning "Rate limit exceeded. Retrying in 4 seconds..."; Sleep 4;
           Post (api_request text);
           StWarning "Rate limit exceeded. Retrying in 8 seconds..."; Sleep 8] /\
    List.length (posts evs) = 3%nat /\
    sleeps evs = [2; 4; 8] /\
    List.length (warnings evs) = 3%nat.
Proof.
  intros H. destruct (rate_limited_run text s H) as (w' & E).
  eexists _, _. split; [exact E|]. split; [reflexivity|].
  repeat split.
Qed.

(** C3, as the code has it: on a response with no error status (200 in
    particular) whose first completion's content is a string, the
    function returns the error result when the content is no JSON, and
    returns the decoded value as it is when the content is JSON,
    whatever its shape. *)
Theorem content_returned_unchecked
    (text : string) (s : state) resp w body content :
  requests_post (api_request text) (world s) = (inr resp, w) ->
  is_http_error (status_code resp) = false ->
  json_loads (Py.text resp) = Some body ->
  first_content body = inr (PStr content) ->
  (json_loads content = None ->
   exists msg,
     classify_text_with_api text s =
     (inr error_result, after s w [Post (api_request text); StError msg])) /\
  (forall v, json_loads content = Some v ->
     classify_text_with_api text s =
     (inr v, after s w [Post (api_request text)])).
Proof.
  intros E H J F. split.
  - intros L.
    destruct (attempt_undecodable_content text 0 s resp w body _ E H J F)
      as (msg & A).
    { now intros c [= <-]. }
    exists msg. apply classify_broke, A.
  - intros v L. apply classify_returned.
    eapply attempt_decoded; eauto.
Qed.

(** C4: when the first request fails in transport, or is answered with
    an HTTP error status other than 429, the function posts that one
    request, shows one error, does not sleep, and returns the error
    result. *)
Theorem no_retry_on_failure (text : string) (s : state) r w :
  requests_post (api_request text) (world s) = (r, w) ->
  match r with
  | inl _ => True
  | inr resp => is_http_error (status_code resp) = true /\ status_code resp <> 429
  end ->
  exists msg evs,
    classify_text_with_api text s = (inr error_result, after s w evs) /\
    evs = [Post (api_request text); StError msg] /\
    posts evs = [api_request text] /\
    sleeps evs = [] /\
    warnings evs = [].
Proof.
  intros E C. destruct r as [descr|resp].
  - eexists _, _. split.
    + apply classify_broke. apply (attempt_transport_failure _ _ _ _ _ E).
    + repeat split.
  - destruct C as [H N]. eexists _, _. split.
    + apply classify_broke. apply (attempt_http_error _ _ _ _ _ E H N).
    + repeat split.
Qed.

(** C5: on a response with no error status (200 in particular) whose
    body is no JSON, or whose first completion's content is no JSON
    text, the function returns the error result and raises nothing. *)
Theorem undecodable_reply_is_error (text : string) (s : state) resp w :
  requests_post (api_request text) (world s) = (inr resp, w) ->
  is_http_error (status_code resp) = false ->
  (json_loads (Py.text resp) = None \/
   exists body c,
     json_loads (Py.text resp) = Some body /\
     first_content body = inr c /\
     forall content, c = PStr content -> json_loads content = None) ->
  exists msg,
    classify_text_with_api text s =
    (inr error_result, after s w [Post (api_request text); StError msg]).
Proof.
  intros E H [J | (body & c & J & F & L)].
  - eexists. apply classify_broke.
    apply (attempt_undecodable_body _ _ _ _ _ E H J).
  - destruct (attempt_undecodable_content text 0 s resp w body c E H J F L)
      as (msg & A).
    exists msg. apply classify_broke, A.
Qed.

(** C7: [extract_text_from_url] returns and does not raise. When the
    article is extracted it returns a prefix of its text, of at most 2000
    characters; when the fetch fails it returns the failure's
    description behind the words Error fetching URL. *)
Theorem extract_text_or_tagged_error (u : string) (s : state) :
  exists t s',
    extract_text_from_url u s = (inr t, s') /\
    ((exists body w,
        article_text u (world s) = (inr body, w) /\
        t = Str.take 2000 body /\
        (exists rest, body = t ++ rest) /\
        (String.length t <= 2000)%nat)
     \/
     (exists descr w,
        article_text u (world s) = (inl descr, w) /\
        t = "Error fetching URL: " ++ exn_str (ArticleException descr))).
Proof.
  destruct (article_text u (world s)) as [[descr|body] w] eqn:E;
    rewrite (extract_run _ _ _ _ E); eexists _, _; (split; [reflexivity|]).
  - right. now exists descr, w.
  - left. exists body, w. repeat split.
    + apply take_prefix.
    + apply take_length.
Qed.

(** C8, as the code has it: in URL mode the script stops before the
    classifier is called exactly when the string that
    [extract_text_from_url] returned contains Error as a substring: then
    nothing is posted, and otherwise the classifier runs on that string.
    So the script stops for every URL that cannot be fetched, and for a
    fetched article it stops exactly when the word occurs in the first
    2000 characters of its text, which are all that is returned: an
    article that has the word further on only is classified. *)
Theorem url_mode_stops_on_error_substring (u : string) (s : state) :
  exists t s1,
    extract_text_from_url u s = (inr t, s1) /\
    s1 = after s (snd (article_text u (world s))) [Download u] /\
    (Str.contains "Error" t = true <-> exists a b, t = a ++ "Error" ++ b) /\
    ((exists a b, t = a ++ "Error" ++ b) ->
     analyze URL u s = (inl StopException, after s1 (world s1) [StError t])) /\
    (~ (exists a b, t = a ++ "Error" ++ b) ->
     analyze URL u s = classify_text_with_api t s1) /\
    ((exists s2, analyze URL u s = (inl StopException, s2))
     <-> exists a b, t = a ++ "Error" ++ b) /\
    (forall descr w,
       article_text u (world s) = (inl descr, w) ->
       exists s2, analyze URL u s = (inl StopException, s2)) /\
    (forall body w,
       article_text u (world s) = (inr body, w) ->
       t = Str.take 2000 body /\
       ((exists s2, analyze URL u s = (inl StopException, s2))
        <-> exists a b, Str.take 2000 body = a ++ "Error" ++ b)).
Proof.
  destruct (article_text u (world s)) as [r w] eqn:E.
  pose proof (extract_run u s r w E) as X.
  eexists _, _. split; [exact X|]. split; [reflexivity|].
  set (t := match r with inr t => _ | inl descr => _ end) in *.
  set (s1 := after s w [Download u]) in *. simpl snd.
  assert (Stop : Str.contains "Error" t = true ->
                 analyze URL u s =
                 (inl StopException, after s1 (world s1) [StError t])).
  { intros C. unfold analyze, bind at 1. unfold bind at 1.
    fold s1. rewrite X, C. reflexivity. }
  assert (Go : Str.contains "Error" t = false ->
               analyze URL u s = classify_text_with_api t s1).
  { intros C. unfold analyze, bind at 1. unfold bind at 1.
    fold s1. rewrite X, C. reflexivity. }
  assert (Iff : (exists s2, analyze URL u s = (inl StopException, s2))
                <-> exists a b, t = a ++ "Error" ++ b).
  { rewrite <- contains_iff. split.
    - intros [s2 A]. destruct (Str.contains "Error" t) eqn:C; [reflexivity|].
      rewrite (Go eq_refl) in A.
      destruct (classify_total t s1) as (v & evs & w' & A' & _).
      rewrite A' in A. discriminate.
    - intros C. eexists. apply Stop, C. }
  split; [apply contains_iff|].
  split; [intros H; apply Stop, contains_iff, H|].
  split.
  { intros H. apply Go. destruct (Str.contains "Error" t) eqn:C; [|reflexivity].
    elim H. apply contains_iff, C. }
  split; [exact Iff|]. split.
  - intros descr w0 [= -> _]. apply Iff.
    exists EmptyString, (" fetching URL: " ++ exn_str (ArticleException descr)).
    reflexivity.
  - intros body w0 [= -> _]. split; [reflexivity | exact Iff].
Qed.

(** C9: on a response with no error status whose body decodes to a
    falsy value, to a value in which choices is not found, or to an
    object whose choices is the empty list, the pass that received it
    shows the message of line 68 and returns the error result, in
    whichever pass of the loop it happens; the function, when it is the
    first response, posts that one request and never sleeps. *)
Theorem empty_or_malformed_body (text : string) (s : state) resp w body :
  requests_post (api_request text) (world s) = (inr resp, w) ->
  is_http_error (status_code resp) = false ->
  json_loads (Py.text resp) = Some body ->
  (truthy body = false \/
   contains "choices" body = inr false \/
   getitem body (Key "choices") = inr (PList [])) ->
  let evs := [Post (api_request text);
              StError "API response was empty or malformed."] in
  (forall n i,
     for_range (attempt text) (S n) i s = (inr (Some error_result), after s w evs)) /\
  classify_text_with_api text s = (inr error_result, after s w evs).
Proof.
  intros E H J C evs.
  assert (A : forall i, attempt text i s = (inr (Returned error_result), after s w evs)).
  { intros i. apply (attempt_no_choices _ _ _ _ _ _ E H J).
    intros s1. destruct C as [C | [C | C]].
    - now apply has_choices_falsy.
    - unfold has_choices, bind, lift. rewrite C. now destruct (truthy body).
    - destruct body as [|b|n|x|t|l|d]; simpl in C; try discriminate.
      rewrite has_choices_dict.
      destruct (dict_get "choices" d); [|discriminate].
      now injection C as ->. }
  split.
  - intros n i. apply for_range_returned, A.
  - apply classify_returned, A.
Qed.

(** C10: when the endpoint answers 429 to every request, the function
    sleeps after each of its three requests, the last one included: its
    last act is to sleep 8 seconds behind the third request, and it
    has slept 2 + 4 + 8 = 14 seconds when it returns the error result. *)
Theorem sleeps_after_last_attempt (text : string) (s : state) :
  (forall rq w, exists resp w',
      requests_post rq w = (inr resp, w') /\ status_code resp = 429) ->
  exists s' before,
    classify_text_with_api text s = (inr error_result, s') /\
    log s' = (log s ++ before
              ++ [Post (api_request text);
                  StWarning "Rate limit exceeded. Retrying in 8 seconds...";
                  Sleep 8])%list /\
    List.length (posts before) = 2%nat /\
    sleeps before = [2; 4] /\
    fold_right Z.add 0 (sleeps before) + 8 = 14.
Proof.
  intros H. destruct (rate_limited_run text s H) as (w' & E).
  eexists _, [_; _; _; _; _; _]. split; [exact E|].
  split; [reflexivity|]. repeat split.
Qed.

(** C6: round trip. On a 200 response whose first completion's content
    is the text of the object with prediction Fake, real_confidence 0.1
    and fake_confidence 0.9, which the decoder reads as that object, the
    function returns the object with exactly these three fields. *)
Theorem round_trip_fake_reply (text : string) (s : state) resp w body :
  requests_post (api_request text) (world s) = (inr resp, w) ->
  status_code resp = 200 ->
  json_loads (Py.text resp) = Some body ->
  first_content body = inr (PStr Sim.fake_reply) ->
  json_loads Sim.fake_reply =
    Some (PDict [("prediction", PStr "Fake");
                 ("real_confidence", PFloat (float_of_decimal false 1 (-1)));
                 ("fake_confidence", PFloat (float_of_decimal false 9 (-1)))]) ->
  classify_text_with_api text s =
  (inr (PDict [("prediction", PStr "Fake");
               ("real_confidence", PFloat (float_of_decimal false 1 (-1)));
               ("fake_confidence", PFloat (float_of_decimal false 9 (-1)))]),
   after s w [Post (api_request text)]).
Proof.
  intros E C J F L. apply classify_returned.
  eapply attempt_decoded; eauto. now rewrite C.
Qed.

End Claims.

(** * Runs

    The program on scripted worlds, with the reference decoder. *)

Section RateLimitedRun.
Import Py.
#[local] Existing Instance Sim.busy.

Lemma rate_limited_three_attempts_run :
  (forall rq w, exists resp w',
      requests_post rq w = (inr resp, w') /\ status_code resp = 429) /\
  exists s' evs,
    classify_text_with_api "Breaking news" (Sim.start 0%nat) = (inr error_result, s') /\
    log s' = (log (Sim.start 0%nat) ++ evs)%list /\
    evs = [Post (api_request "Breaking news");
           StWarning "Rate limit exceeded. Retrying in 2 seconds..."; Sleep 2;
           Post (api_request "Breaking news");
           StWarning "Rate limit exceeded. Retrying in 4 seconds..."; Sleep 4;
           Post (api_request "Breaking news");
           StWarning "Rate limit exceeded. Retrying in 8 seconds..."; Sleep 8] /\
    List.length (posts evs) = 3%nat /\
    sleeps evs = [2; 4; 8] /\
    List.length (warnings evs) = 3%nat.
Proof.
  assert (H : forall rq w, exists resp w',
             requests_post rq w = (inr resp, w') /\ status_code resp = 429).
  { intros rq w. eexists _, _. split; reflexivity. }
  split; [exact H|].
  apply (rate_limited_three_attempts (R := Sim.busy) "Breaking news" _ H).
Defined.

Lemma sleeps_after_last_attempt_run :
  (forall rq w, exists resp w',
      requests_post rq w = (inr resp, w') /\ status_code resp = 429) /\
  exists s' before,
    classify_text_with_api "Breaking news" (Sim.start 0%nat) = (inr error_result, s') /\
    log s' = (log (Sim.start 0%nat) ++ before
              ++ [Post (api_request "Breaking news");
                  StWarning "Rate limit exceeded. Retrying in 8 seconds...";
                  Sleep 8])%list /\
    List.length (posts before) = 2%nat /\
    sleeps before = [2; 4] /\
    fold_right Z.add 0 (sleeps before) + 8 = 14.
Proof.
  assert (H : forall rq w, exists resp w',
             requests_post rq w = (inr resp, w') /\ status_code resp = 429).
  { intros rq w. eexists _, _. split; reflexivity. }
  split; [exact H|].
  apply (sleeps_after_last_attempt (R := Sim.busy) "Breaking news" _ H).
Defined.

End RateLimitedRun.

Section ServerErrorRun.
Import Py.
#[local] Existing Instance Sim.broken.

Lemma no_retry_on_failure_run :
  requests_post (api_request "Breaking news") (world (Sim.start 0%nat))
  = (inr (mkResponse 500 "Internal Server Error"), 1%nat) /\
  (is_http_error 500 = true /\ 500 <> 429) /\
  exists msg evs,
    classify_text_with_api "Breaking news" (Sim.start 0%nat)
    = (inr error_result, after (Sim.start 0%nat) 1%nat evs) /\
    evs = [Post (api_request "Breaking news"); StError msg] /\
    posts evs = [api_request "Breaking news"] /\
    sleeps evs = [] /\
    warnings evs = [].
Proof.
  split; [reflexivity|]. split; [split; [reflexivity | discriminate]|].
  apply (no_retry_on_failure (R := Sim.broken) "Breaking news" _
           (inr (mkResponse 500 "Internal Server Error")) 1%nat).
  - reflexivity.
  - split; [reflexivity | discriminate].
Defined.

End ServerErrorRun.

Section TransportFailureRun.
Import Py.
#[local] Existing Instance Sim.down.

(** The same for an endpoint that cannot be reached. *)
Example unreachable_endpoint_run :
  classify_text_with_api "Breaking news" (Sim.start 0%nat)
  = (inr error_result,
     after (Sim.start 0%nat) 1%nat
       [Post (api_request "Breaking news");
        StError "Error calling the Groq API: Connection refused"]).
Proof. reflexivity. Qed.

End TransportFailureRun.

Section UndecodableBodyRun.
Import Py.
#[local] Existing Instance Sim.html.

Lemma undecodable_reply_is_error_run :
  requests_post (api_request "Breaking news") (world (Sim.start 0%nat))
  = (inr (mkResponse 200 "<html>Bad gateway</html>"), 1%nat) /\
  is_http_error 200 = false /\
  json_loads "<html>Bad gateway</html>" = None /\
  exists msg,
    classify_text_with_api "Breaking news" (Sim.start 0%nat)
    = (inr error_result,
       after (Sim.start 0%nat) 1%nat [Post (api_request "Breaking news"); StError msg]).
Proof.
  split; [reflexivity|]. split; [reflexivity|]. split; [reflexivity|].
  apply (undecodable_reply_is_error (R := Sim.html) "Breaking news" _
           (mkResponse 200 "<html>Bad gateway</html>") 1%nat).
  - reflexivity.
  - reflexivity.
  - left. reflexivity.
Defined.

End UndecodableBodyRun.

Section EmptyBodyRun.
Import Py.
#[local] Existing Instance Sim.empty.

Lemma empty_or_malformed_body_run :
  requests_post (api_request "Breaking news") (world (Sim.start 0%nat))
  = (inr (mkResponse 200 "{}"), 1%nat) /\
  is_http_error 200 = false /\
  json_loads "{}" = Some (PDict []) /\
  truthy (PDict []) = false /\
  let evs := [Post (api_request "Breaking news");
              StError "API response was empty or malformed."] in
  (forall n i,
     for_range (attempt "Breaking news") (S n) i (Sim.start 0%nat)
     = (inr (Some error_result), after (Sim.start 0%nat) 1%nat evs)) /\
  classify_text_with_api "Breaking news" (Sim.start 0%nat)
  = (inr error_result, after (Sim.start 0%nat) 1%nat evs).
Proof.
  split; [reflexivity|]. split; [reflexivity|]. split; [reflexivity|].
  split; [reflexivity|].
  apply (empty_or_malformed_body (R := Sim.empty) "Breaking news" _
           (mkResponse 200 "{}") 1%nat (PDict [])).
  - reflexivity.
  - reflexivity.
  - reflexivity.
  - left. reflexivity.
Defined.

End EmptyBodyRun.

Section RoundTripRun.
Import Py.
#[local] Existing Instance Sim.fake.

Lemma round_trip_fake_reply_run :
  requests_post (api_request "Breaking news") (world (Sim.start 0%nat))
  = (inr (mkResponse 200 (Sim.completion Sim.fake_reply)), 1%nat) /\
  json_loads (Sim.completion Sim.fake_reply)
  = Some (Sim.completion_value Sim.fake_reply) /\
  first_content (Sim.completion_value Sim.fake_reply) = inr (PStr Sim.fake_reply) /\
  classify_text_with_api "Breaking news" (Sim.start 0%nat)
  = (inr (PDict [("prediction", PStr "Fake");
                 ("real_confidence", PFloat (float_of_decimal false 1 (-1)));
                 ("fake_confidence", PFloat (float_of_decimal false 9 (-1)))]),
     after (Sim.start 0%nat) 1%nat [Post (api_request "Breaking news")]).
Proof.
  split; [reflexivity|]. split; [vm_compute; reflexivity|].
  split; [reflexivity|].
  apply (round_trip_fake_reply (R := Sim.fake) "Breaking news" _
           (mkResponse 200 (Sim.completion Sim.fake_reply)) 1%nat
           (Sim.completion_value Sim.fake_reply)).
  - reflexivity.
  - reflexivity.
  - vm_compute; reflexivity.
  - reflexivity.
  - vm_compute; reflexivity.
Defined.

End RoundTripRun.

Section UncheckedLabelRun.
Import Py.
#[local] Existing Instance Sim.satire.


End UncheckedLabelRun.

Section UncheckedShapeRun.
Import Py.
#[local] Existing Instance Sim.partial.

Lemma content_returned_unchecked_run :
  requests_post (api_request "Breaking news") (world (Sim.start 0%nat))
  = (inr (mkResponse 200 (Sim.completion Sim.partial_reply)), 1%nat) /\
  is_http_error 200 = false /\
  json_loads (Sim.completion Sim.partial_reply)
  = Some (Sim.completion_value Sim.partial_reply) /\
  first_content (Sim.completion_value Sim.partial_reply)
  = inr (PStr Sim.partial_reply) /\
  (json_loads Sim.partial_reply = None ->
   exists msg,
     classify_text_with_api "Breaking news" (Sim.start 0%nat) =
     (inr error_result,
      after (Sim.start 0%nat) 1%nat [Post (api_request "Breaking news"); StError msg])) /\
  (forall v, json_loads Sim.partial_reply = Some v ->
     classify_text_with_api "Breaking news" (Sim.start 0%nat) =
     (inr v, after (Sim.start 0%nat) 1%nat [Post (api_request "Breaking news")])).
Proof.
  split; [reflexivity|]. split; [reflexivity|].
  split; [vm_compute; reflexivity|]. split; [reflexivity|].
  apply (content_returned_unchecked (R := Sim.partial) "Breaking news" _
           (mkResponse 200 (Sim.completion Sim.partial_reply)) 1%nat
           (Sim.completion_value Sim.partial_reply) Sim.partial_reply).
  - reflexivity.
  - reflexivity.
  - vm_compute; reflexivity.
  - reflexivity.
Defined.

(** Against C3 as the specification words it: the endpoint answers 200
    with a reply that is JSON and has no prediction, which is not the
    format asked for, and the function returns that reply, not the
    error result. *)
Lemma reply_without_prediction_is_returned :
  exists v,
    status_code (mkResponse 200 (Sim.completion Sim.partial_reply)) = 200 /\
    json_loads Sim.partial_reply = Some v /\
    follows_format v = false /\
    getitem v (Key "prediction") = inl (KeyError (Key "prediction")) /\
    fst (classify_text_with_api "Breaking news" (Sim.start 0%nat)) = inr v /\
    prediction_of v <> Some "Error".
Proof.
  exists (PDict [("real_confidence", PFloat (float_of_decimal false 5 (-1)))]).
  split; [reflexivity|]. split; [vm_compute; reflexivity|].
  split; [reflexivity|]. split; [reflexivity|].
  split; [vm_compute; reflexivity | discriminate].
Qed.

End UncheckedShapeRun.

(** * Beyond the claims: the shape of every call *)

Section RunShape.
Context {R : Runtime}.
Import Py.
Local Open Scope py_scope.

(** What subscripting and membership raise is no [HTTPError]. *)
Lemma getitem_not_http v k e resp : getitem v k = inl e -> e <> HTTPError resp.
Proof.
  destruct v, k; simpl; try (intros [= <-]; discriminate);
    repeat (match goal with |- context [match ?x with _ => _ end] => destruct x end;
            try discriminate); intros [= <-]; discriminate.
Qed.

Lemma contains_not_http x v e resp : contains x v = inl e -> e <> HTTPError resp.
Proof. destruct v; simpl; try discriminate; intros [= <-]; discriminate. Qed.

Lemma has_choices_not_http v s e s' resp :
  has_choices v s = (inl e, s') -> e <> HTTPError resp.
Proof.
  unfold has_choices, bind, lift, ret.
  destruct (truthy v); [|discriminate].
  destruct (contains "choices" v) as [e0|[|]] eqn:C; try discriminate.
  - intros [= <- _]. eapply contains_not_http; eauto.
  - destruct (getitem v (Key "choices")) eqn:G; try discriminate.
    intros [= <- _]. eapply getitem_not_http; eauto.
Qed.

(** The handlers end a pass in one of two ways. *)
Lemma on_exception_shape i e s :
  is_Exception e = true ->
  on_exception i e s =
    (inr Next, after s (world s) [StWarning (retry_warning i); Sleep (2 ^ (i + 1))])
  \/ exists msg, on_exception i e s = (inr Broke, after s (world s) [StError msg]).
Proof.
  intros E. destruct e; try discriminate;
    try (right; eexists; apply on_exception_other; [reflexivity | discriminate]).
  destruct (Z.eq_dec (status_code r) 429) as [C|C].
  - left. apply on_exception_429, C.
  - right. eexists. apply on_exception_http, C.
Qed.

(** A pass is a rate-limited pass, a silent pass that returns the decoded
    reply, or a pass that shows one error and ends the loop. *)
Lemma attempt_shape text i s :
  exists w,
    attempt text i s =
      (inr Next,
       after s w [Post (api_request text); StWarning (retry_warning i);
                  Sleep (2 ^ (i + 1))])
    \/ (exists v resp,
          attempt text i s = (inr (Returned v), after s w [Post (api_request text)]) /\
          answered text resp /\ decoded_from resp v)
    \/ (exists msg f,
          attempt text i s = (inr f, after s w [Post (api_request text); StError msg]) /\
          (f = Broke \/ f = Returned error_result)).
Proof.
  destruct (requests_post (api_request text) (world s)) as [[descr|resp] w] eqn:E;
    exists w.
  { right. right. eexists _, _. split;
      [apply (attempt_transport_failure _ _ _ _ _ E) | now left]. }
  unfold attempt, try_except. rewrite (request_once_run _ _ _ _ E).
  destruct (read_response resp (after s w [Post (api_request text)]))
    as [x s1] eqn:RR.
  destruct (read_response_cases _ _ _ _ RR)
    as [(e & -> & Ex & ->) | [(-> & ->) | (v & -> & -> & D)]].
  - destruct (on_exception_shape i e (after s w [Post (api_request text)]) Ex)
      as [H | [msg H]]; rewrite H, after_after.
    + left. reflexivity.
    + right. right. exists msg, Broke. split; [reflexivity | now left].
  - right. right. rewrite after_after. eexists _, _.
    split; [reflexivity | now right].
  - right. left. exists v, resp. split; [reflexivity|]. split; [|exact D].
    now exists (world s), w.
Qed.

Lemma retry_events_app rq k i tail :
  ([Post rq; StWarning (retry_warning i); Sleep (2 ^ (i + 1))]
   ++ retry_events rq k (i + 1) ++ tail)%list
  = (retry_events rq (S k) i ++ tail)%list.
Proof. reflexivity. Qed.

(** The loop: [k] rate-limited passes, then nothing more when the passes
    are used up, or one last pass. *)
Lemma for_range_shape text n i s :
  exists k w tail r,
    for_range (attempt text) n i s
    = (inr r, after s w (retry_events (api_request text) k i ++ tail)%list) /\
    ((k = n /\ tail = [] /\ r = None)
     \/ ((k < n)%nat /\
         ((exists v resp,
             r = Some v /\ tail = [Post (api_request text)] /\
             answered text resp /\ decoded_from resp v)
          \/ (exists msg,
                tail = [Post (api_request text); StError msg] /\
                (r = None \/ r = Some error_result))))).
Proof.
  revert i s. induction n as [|n IH]; intros i s.
  - exists O, (world s), [], None. split; [|now left].
    simpl. unfold ret, after. rewrite app_nil_r. now destruct s.
  - destruct (attempt_shape text i s) as (w & [A | [(v & resp & A & Hr & D) | (msg & f & A & Hf)]]).
    + rewrite (for_range_next _ _ _ _ _ A).
      destruct (IH (i + 1) (after s w [Post (api_request text);
                                       StWarning (retry_warning i);
                                       Sleep (2 ^ (i + 1))]))
        as (k & w' & tail & r & E & C).
      exists (S k), w', tail, r. rewrite E, after_after, retry_events_app.
      split; [reflexivity|].
      destruct C as [(-> & -> & ->) | (Hk & C)].
      * now left.
      * right. split; [lia | exact C].
    + exists O, w, [Post (api_request text)], (Some v).
      rewrite (for_range_returned _ _ _ _ _ _ A). split; [reflexivity|].
      right. split; [lia|]. left. now exists v, resp.
    + exists O, w, [Post (api_request text); StError msg].
      destruct Hf as [-> | ->].
      * exists None. rewrite (for_range_broke _ _ _ _ _ A).
        split; [reflexivity|]. right. split; [lia|]. right. exists msg.
        split; [reflexivity | now left].
      * exists (Some error_result). rewrite (for_range_returned _ _ _ _ _ _ A).
        split; [reflexivity|]. right. split; [lia|]. right. exists msg.
        split; [reflexivity | now right].
Qed.

(** X1. Every call of [classify_text_with_api] is made of [k] passes
    that were answered 429, each a request, a warning and a sleep of 2, 4
    and 8 seconds in turn, and then: nothing more and the error result
    when [k] is 3; otherwise one last request, which either gives the
    decoded reply without a message or shows one error and gives the
    error result. *)
Theorem classify_run_shape (text : string) (s : state) :
  exists k w tail v,
    classify_text_with_api text s
    = (inr v, after s w (retry_events (api_request text) k 0 ++ tail)%list) /\
    ((k = 3%nat /\ tail = [] /\ v = error_result)
     \/ ((k < 3)%nat /\
         ((exists resp,
             tail = [Post (api_request text)] /\
             answered text resp /\ decoded_from resp v)
          \/ (exists msg,
                tail = [Post (api_request text); StError msg] /\
                v = error_result)))).
Proof.
  destruct (for_range_shape text 3 0 s) as (k & w & tail & r & E & C).
  rewrite (classify_run _ _ _ _ E).
  exists k, w, tail, (match r with Some v => v | None => error_result end).
  split; [reflexivity|].
  destruct C as [(-> & -> & ->) | (Hk & [(v & resp & -> & -> & Hr & D) | (msg & -> & Hr)])].
  - now left.
  - right. split; [exact Hk|]. left. now exists resp.
  - right. split; [exact Hk|]. right. exists msg. split; [reflexivity|].
    now destruct Hr as [-> | ->].
Qed.

End RunShape.

(** * Beyond the claims: bounds, retries and malformed replies *)

Section Retries.
Context {R : Runtime}.
Import Py.
Local Open Scope py_scope.

(** X2. Whatever the endpoint does, a call posts at least one and at most
    three requests, all of them the same request; the seconds it sleeps
    are the first few of 2, 4, 8, so 14 at most; it warns once for each
    sleep; and it downloads nothing. *)
Theorem classify_bounded (text : string) (s : state) :
  exists v w evs,
    classify_text_with_api text s = (inr v, after s w evs) /\
    (1 <= List.length (posts evs) <= 3)%nat /\
    posts evs = repeat (api_request text) (List.length (posts evs)) /\
    is_prefix (sleeps evs) [2; 4; 8] /\
    fold_right Z.add 0 (sleeps evs) <= 14 /\
    List.length (warnings evs) = List.length (sleeps evs) /\
    downloads evs = [].
Proof.
  destruct (classify_run_shape text s) as (k & w & tail & v & E & C).
  exists v, w, (retry_events (api_request text) k 0 ++ tail)%list.
  split; [exact E|].
  destruct C as [(-> & -> & _) | (Hk & [(resp & -> & _) | (msg & -> & _)])].
  - simpl. repeat split; try lia. now exists [].
  - destruct k as [|[|[|k]]]; try lia; simpl; repeat split; try lia;
      eexists; reflexivity.
  - destruct k as [|[|[|k]]]; try lia; simpl; repeat split; try lia;
      eexists; reflexivity.
Qed.

(** X3. A call that showed neither a warning nor an error posted exactly
    one request and returns the value decoded from its answer: no failure
    passes without a message. *)
Theorem silent_run_is_success (text : string) (s s' : state) v evs :
  classify_text_with_api text s = (inr v, s') ->
  log s' = (log s ++ evs)%list ->
  warnings evs = [] ->
  errors evs = [] ->
  evs = [Post (api_request text)] /\
  exists resp, answered text resp /\ decoded_from resp v.
Proof.
  intros H L Wn Er.
  destruct (classify_run_shape text s) as (k & w & tail & v0 & E & C).
  rewrite E in H. injection H as <- <-. simpl in L.
  apply app_inv_head in L. subst evs.
  destruct C as [(-> & -> & _) | (Hk & [(resp & -> & Hr & D) | (msg & -> & _)])].
  - discriminate.
  - destruct k as [|k]; [|discriminate]. split; [reflexivity|]. now exists resp.
  - destruct k as [|k]; discriminate.
Qed.

(** [k] passes answered 429 use up [k] passes of the loop. *)
Lemma for_range_limited text k : forall n i s w',
  limited (api_request text) k (world s) w' ->
  for_range (attempt text) (k + n) i s
  = for_range (attempt text) n (i + Z.of_nat k)
      (after s w' (retry_events (api_request text) k i)).
Proof.
  induction k as [|k IH]; intros n i s w' L; inversion L; subst.
  - simpl. rewrite Z.add_0_r. unfold after. rewrite app_nil_r. now destruct s.
  - match goal with
    | H1 : requests_post _ _ = _, H2 : status_code _ = 429 |- _ =>
        pose proof (attempt_rate_limited text i s _ _ H1 H2) as A
    end.
    change (S k + n)%nat with (S (k + n)).
    rewrite (for_range_next _ _ _ _ _ A).
    rewrite (IH n (i + 1) _ w') by assumption.
    rewrite after_after. f_equal. lia.
Qed.

Lemma classify_limited text k s w' :
  (k <= 2)%nat ->
  limited (api_request text) k (world s) w' ->
  for_range (attempt text) 3 0 s
  = for_range (attempt text) (S (2 - k)) (Z.of_nat k)
      (after s w' (retry_events (api_request text) k 0)).
Proof.
  intros Hk L. replace 3%nat with (k + S (2 - k))%nat by lia.
  now rewrite (for_range_limited text k _ 0 s w' L).
Qed.

(** X4. The retry works: when the endpoint answers 429 to the first [k]
    requests, [k] at most 2, and then sends a reply that decodes, the call
    returns the decoded value after [k] sleeps and [k + 1] requests. *)
Theorem retry_then_reply (text : string) (s : state) k w1 resp w2 v :
  (k <= 2)%nat ->
  limited (api_request text) k (world s) w1 ->
  requests_post (api_request text) w1 = (inr resp, w2) ->
  decoded_from resp v ->
  classify_text_with_api text s
  = (inr v,
     after s w2 (retry_events (api_request text) k 0
                 ++ [Post (api_request text)])%list).
Proof.
  intros Hk L E (H & body & content & J & F & D).
  erewrite classify_run.
  2:{ rewrite (classify_limited text k s w1 Hk L).
      apply for_range_returned.
      eapply attempt_decoded; eauto. }
  now rewrite after_after.
Qed.

(** X5. A failure that is no 429 ends the retries: when the endpoint
    answers 429 to the first [k] requests, [k] at most 2, and the next
    request fails in transport or is answered with another HTTP error
    status, the call shows one error, posts nothing more and returns the
    error result. *)
Theorem retry_then_failure (text : string) (s : state) k w1 r w2 :
  (k <= 2)%nat ->
  limited (api_request text) k (world s) w1 ->
  requests_post (api_request text) w1 = (r, w2) ->
  match r with
  | inl _ => True
  | inr resp => is_http_error (status_code resp) = true /\ status_code resp <> 429
  end ->
  exists msg,
    classify_text_with_api text s
    = (inr error_result,
       after s w2 (retry_events (api_request text) k 0
                   ++ [Post (api_request text); StError msg])%list).
Proof.
  intros Hk L E C.
  assert (A : exists msg,
             attempt text (Z.of_nat k)
               (after s w1 (retry_events (api_request text) k 0))
             = (inr Broke,
                after (after s w1 (retry_events (api_request text) k 0)) w2
                  [Post (api_request text); StError msg])).
  { destruct r as [descr|resp].
    - eexists. apply attempt_transport_failure. exact E.
    - destruct C as [H N]. eexists. apply attempt_http_error; eauto. }
  destruct A as (msg & A). exists msg.
  erewrite classify_run.
  2:{ rewrite (classify_limited text k s w1 Hk L).
      apply for_range_broke. exact A. }
  now rewrite after_after.
Qed.

(** X6. A reply without the expected fields is an error: on a response
    with no error status whose body decodes, when
    [result["choices"][0]["message"]["content"]] cannot be read (a key is
    missing, [choices] is no list, a choice is no object), the call shows
    one error, does not retry and returns the error result. *)
Theorem missing_fields_is_error (text : string) (s : state) resp w body e :
  requests_post (api_request text) (world s) = (inr resp, w) ->
  is_http_error (status_code resp) = false ->
  json_loads (Py.text resp) = Some body ->
  first_content body = inl e ->
  exists msg,
    classify_text_with_api text s
    = (inr error_result, after s w [Post (api_request text); StError msg]).
Proof.
  intros E H J F.
  assert (A : exists msg f,
             attempt text 0 s
             = (inr f, after s w [Post (api_request text); StError msg]) /\
             (f = Broke \/ f = Returned error_result)).
  { unfold attempt, try_except. rewrite (request_once_run _ _ _ _ E).
    set (s1 := after s w [Post (api_request text)]).
    rewrite (read_response_body _ _ _ H J). unfold bind at 1.
    destruct (has_choices body s1) as [[e'|[|]] s2] eqn:HC;
      pose proof (has_choices_state body s1) as Hs; rewrite HC in Hs;
      simpl in Hs; subst s2.
    - rewrite on_exception_other;
        [| eapply has_choices_raises; eauto
         | intros r; eapply has_choices_not_http; eauto].
      subst s1. rewrite after_after. eexists _, _. split; [reflexivity | now left].
    - assert (X : forall e0 : exn,
                 is_Exception e0 = true -> (forall r, e0 <> HTTPError r) ->
                 exists msg f,
                   on_exception 0 e0 s1
                   = (inr f, after s w [Post (api_request text); StError msg]) /\
                   (f = Broke \/ f = Returned error_result)).
      { intros e0 X1 X2. rewrite (on_exception_other _ _ _ X1 X2).
        subst s1. rewrite after_after. eexists _, _.
        split; [reflexivity | now left]. }
      unfold first_content in F. unfold bind, lift.
      destruct (getitem body (Key "choices")) as [e1|choices] eqn:G1.
      { apply X; [eapply getitem_raises | intros r; eapply getitem_not_http]; eauto. }
      destruct (getitem choices (Index 0)) as [e2|first] eqn:G2.
      { apply X; [eapply getitem_raises | intros r; eapply getitem_not_http]; eauto. }
      destruct (getitem first (Key "message")) as [e3|message] eqn:G3.
      { apply X; [eapply getitem_raises | intros r; eapply getitem_not_http]; eauto. }
      rewrite F.
      apply X; [eapply getitem_raises | intros r; eapply getitem_not_http]; eauto.
    - unfold bind, st_error, ret. rewrite emit_run. subst s1.
      rewrite after_after. eexists _, _. split; [reflexivity | now right]. }
  destruct A as (msg & f & A & [-> | ->]); exists msg.
  - apply classify_broke, A.
  - apply classify_returned, A.
Qed.

(** *** The article fetch *)

Lemma take_all (n : nat) (t : string) :
  (String.length t <= n)%nat -> Str.take n t = t.
Proof.
  revert t; induction n as [|n IH]; intros [|c t]; simpl; intros H;
    try reflexivity; try lia.
  rewrite IH by lia. reflexivity.
Qed.

Lemma take_exact (n : nat) (t : string) :
  (n <= String.length t)%nat -> String.length (Str.take n t) = n.
Proof.
  revert t; induction n as [|n IH]; intros [|c t]; simpl; intros H;
    try reflexivity; try lia.
  rewrite IH by lia. reflexivity.
Qed.

(** X7. An article of at most 2000 characters is returned whole, a
    longer one is cut to exactly 2000 characters; either way the fetch
    downloads once and posts nothing. *)
Theorem extract_short_whole_long_cut (u : string) (s : state) body w :
  article_text u (world s) = (inr body, w) ->
  exists t,
    extract_text_from_url u s = (inr t, after s w [Download u]) /\
    ((String.length body <= 2000)%nat -> t = body) /\
    ((2000 <= String.length body)%nat -> String.length t = 2000%nat).
Proof.
  intros E. rewrite (extract_run _ _ _ _ E). eexists. split; [reflexivity|].
  split; intros H; [apply take_all | apply take_exact]; exact H.
Qed.

End Retries.

(** * Beyond the claims: the page script *)

Section InputCheck.

Lemma all_space_lstrip (t : string) :
  all_space (PyStr.lstrip t) = all_space t.
Proof.
  induction t as [|c t IH]; [reflexivity|]. simpl.
  destruct (PyStr.isspace c) eqn:C; [exact IH|]. simpl. now rewrite C.
Qed.

Lemma rstrip_empty_iff (t : string) :
  PyStr.rstrip t = EmptyString <-> all_space t = true.
Proof.
  induction t as [|c t IH]; simpl; [tauto|].
  destruct (PyStr.rstrip t) as [|c' r].
  - destruct (PyStr.isspace c); simpl.
    + destruct IH as [IH _]. split; [intros _; now apply IH | reflexivity].
    + split; discriminate.
  - split; [discriminate|]. intros H. apply andb_true_iff in H as [_ H].
    destruct IH as [_ IH]. discriminate (IH H).
Qed.

(** [s.strip()] is empty exactly when [s] holds nothing but white space. *)
Lemma strip_empty_iff (t : string) :
  PyStr.strip t = EmptyString <-> all_space t = true.
Proof. unfold PyStr.strip. now rewrite rstrip_empty_iff, all_space_lstrip. Qed.

(** The condition of line 135. *)
Lemma blank_check (t : string) :
  negb (PyStr.nonempty t) || negb (PyStr.nonempty (PyStr.strip t))
  = all_space t.
Proof.
  destruct (all_space t) eqn:A.
  - apply strip_empty_iff in A. rewrite A. apply orb_true_r.
  - destruct t as [|c t]; [discriminate|]. simpl negb at 1. simpl orb.
    destruct (PyStr.strip (String c t)) eqn:S; [|reflexivity].
    apply strip_empty_iff in S. congruence.
Qed.

End InputCheck.

Section PageFacts.
Context {R : Runtime} {W : Streamlit}.
Import Py.
Local Open Scope page_scope.

(** Lists of widgets, appended in any grouping, in one normal form. *)
Ltac flatten_widgets :=
  unfold heading; cbn [core shown];
  repeat first [rewrite <- app_assoc | progress cbn [app]].

Lemma page_eta (ps : page_state) : mkPage (core ps) (shown ps) = ps.
Proof. now destruct ps. Qed.

Lemma show_verdict_run p ps :
  show_verdict p ps = (inr tt, mkPage (core ps) (shown ps ++ verdict p)%list).
Proof.
  unfold show_verdict, verdict.
  destruct (eq_str "True" p); [reflexivity|].
  destruct (eq_str "Fake" p); [reflexivity|].
  destruct (eq_str "Unverifiable" p); [reflexivity|].
  unfold pret. now rewrite app_nil_r, page_eta.
Qed.

(** Line 149 on a value whose prediction cannot be read. *)
Lemma render_unreadable u v e ps :
  getitem v (Key "prediction") = inl e ->
  render u v ps = (inl (Raised e), ps).
Proof.
  intros G. unfold render, pbind, run_core, lift. rewrite G.
  now rewrite page_eta.
Qed.

(** Lines 149-150 on a value whose prediction is Error. *)
Lemma render_error u v p ps :
  getitem v (Key "prediction") = inr p ->
  eq_str "Error" p = true ->
  render u v ps
  = (inr tt,
     mkPage (after (core ps) (world (core ps))
               [StError "Could not get a valid response from the API."])
            (shown ps)).
Proof.
  intros G E. unfold render, pbind, run_core, lift. rewrite G. simpl.
  rewrite E. reflexivity.
Qed.

(** Lines 152-169 on an object whose prediction is not Error: the page
    displays the heading, the URL in URL mode, the prediction and its
    sentence, and goes on to the confidence levels. *)
Lemma render_dict u d p ps :
  dict_get "prediction" d = Some p ->
  eq_str "Error" p = false ->
  render u (PDict d) ps
  = show_confidence (confidence "real_confidence" d)
      (confidence "fake_confidence" d)
      (mkPage (core ps)
         (shown ps ++ heading ++ url_line u
          ++ [StWrite ("**Prediction:** " ++ fstr p)] ++ verdict p)%list).
Proof.
  intros G E. unfold render, pbind at 1, run_core, lift, getitem.
  rewrite G. cbv beta iota. rewrite E.
  unfold get, confidence. rewrite G.
  destruct (dict_get "real_confidence" d) as [real|];
    destruct (dict_get "fake_confidence" d) as [fake|];
    unfold pbind, pret, show; cbv beta iota; cbn [core shown];
    (destruct u as [[|c r]|]; cbn [PyStr.nonempty]; cbv beta iota;
     cbn [core shown]; rewrite show_verdict_run; cbv beta iota;
     unfold url_line; flatten_widgets; reflexivity).
Qed.

Lemma show_confidence_none real fake ps :
  is_not_None real && is_not_None fake = false ->
  show_confidence real fake ps = (inr tt, ps).
Proof. intros E. unfold show_confidence. now rewrite E. Qed.

Lemma show_confidence_some real fake ps :
  is_not_None real && is_not_None fake = true ->
  show_confidence real fake ps
  = (real_text <- fpercent real ;;
     st_progress real ("Real News Confidence: " ++ real_text) ;;
     fake_text <- fpercent fake ;;
     st_progress fake ("Fake News Confidence: " ++ fake_text))
      (mkPage (core ps)
         (shown ps ++ [StMarkdown "---"; StMarkdown "### Confidence Levels"])%list).
Proof.
  intros E. unfold show_confidence. rewrite E.
  unfold pbind at 1, show at 1. unfold pbind at 1, show at 1.
  simpl core. simpl shown. now rewrite <- app_assoc.
Qed.

(** The confidence levels can fail in two ways only. *)
Lemma show_confidence_outcome real fake ps :
  fst (show_confidence real fake ps) = inr tt
  \/ fst (show_confidence real fake ps) = inl FormatError
  \/ fst (show_confidence real fake ps) = inl StreamlitAPIException.
Proof.
  unfold show_confidence.
  destruct (is_not_None real && is_not_None fake); [|now left].
  unfold pbind, show, fpercent, st_progress, pret, praise. cbv beta iota.
  destruct (format_percent real); cbv beta iota; [|now (right; left)].
  destruct (progress_accepts real); cbv beta iota; [|now (right; right)].
  destruct (format_percent fake); cbv beta iota; [|now (right; left)].
  destruct (progress_accepts fake); cbv beta iota; [now left | now (right; right)].
Qed.

(** The analysis runs when the input is not blank. *)
Lemma on_analyze_nonblank mode input ps :
  all_space input = false ->
  on_analyze mode input true ps
  = (api_result <- run_core (analyze mode input) ;;
     render (url_to_display mode input) api_result) ps.
Proof. intros B. unfold on_analyze. now rewrite blank_check, B. Qed.

Lemma on_analyze_result mode input ps v s' :
  all_space input = false ->
  analyze mode input (core ps) = (inr v, s') ->
  on_analyze mode input true ps
  = render (url_to_display mode input) v (mkPage s' (shown ps)).
Proof.
  intros B A. rewrite (on_analyze_nonblank _ _ _ B).
  unfold pbind, run_core. now rewrite A.
Qed.

(** X8. A blank input is not analyzed: when the button is pressed on an
    input that is empty or holds only white space, in either mode, the
    page shows one warning and does nothing else: no download, no
    request. When the button is not pressed nothing happens at all. *)
Theorem blank_input_only_warns (mode : input_type) (input : string)
    (ps : page_state) :
  all_space input = true ->
  on_analyze mode input true ps
  = (inr tt,
     mkPage (after (core ps) (world (core ps))
               [StWarning "⚠️ Please provide text or a URL to analyze."])
            (shown ps))
  /\ on_analyze mode input false ps = (inr tt, ps).
Proof.
  intros B. split; [|reflexivity].
  unfold on_analyze. rewrite blank_check, B. reflexivity.
Qed.

(** X9. Every failure of the analysis reaches the page as one fixed
    message: when the analysis of a non-blank input returns a result
    whose prediction is Error, the page adds the error of line 150 to
    what the analysis logged and displays nothing. *)
Theorem failure_shows_fixed_message (mode : input_type) (input : string)
    (ps : page_state) v s' :
  all_space input = false ->
  analyze mode input (core ps) = (inr v, s') ->
  prediction_of v = Some "Error" ->
  on_analyze mode input true ps
  = (inr tt,
     mkPage (after s' (world s')
               [StError "Could not get a valid response from the API."])
            (shown ps)).
Proof.
  intros B A Pr. rewrite (on_analyze_result _ _ _ _ _ B A).
  unfold prediction_of in Pr.
  destruct (getitem v (Key "prediction")) as [e|p] eqn:G; [discriminate|].
  destruct p; try discriminate. injection Pr as ->.
  now rewrite (render_error _ _ _ _ G eq_refl).
Qed.

(** X10. A reply without a readable prediction makes the script raise:
    when the analysis of a non-blank input returns a value that is no
    object, or an object without the key prediction, line 149 raises
    [TypeError] or [KeyError] out of the script, after the request was
    made and before anything is displayed. *)
Theorem reply_without_prediction_raises (mode : input_type) (input : string)
    (ps : page_state) v s' :
  all_space input = false ->
  analyze mode input (core ps) = (inr v, s') ->
  (forall d, v = PDict d -> dict_get "prediction" d = None) ->
  exists e,
    on_analyze mode input true ps = (inl (Raised e), mkPage s' (shown ps)) /\
    (e = TypeError \/ e = KeyError (Key "prediction")).
Proof.
  intros B A N. rewrite (on_analyze_result _ _ _ _ _ B A).
  destruct v as [|b|n|x|t|l|d];
    try (exists TypeError; split; [now apply render_unreadable | now left]).
  exists (KeyError (Key "prediction")). split; [|now right].
  apply render_unreadable. simpl. now rewrite (N d eq_refl).
Qed.

(** X11. The display never calls [get] on a value that has no such
    method, and never falls back on the default prediction: whatever the
    value, [render] does not raise [AttributeError], and when it gets past
    line 149 the prediction it displays is the one of the reply. *)
Theorem render_never_attribute_error (u : option string) (v : pyval)
    (ps : page_state) :
  fst (render u v ps) <> inl AttributeError /\
  (forall p, getitem v (Key "prediction") = inr p ->
             eq_str "Error" p = false ->
             exists d, v = PDict d /\
               render u v ps
               = show_confidence (confidence "real_confidence" d)
                   (confidence "fake_confidence" d)
                   (mkPage (core ps)
                      (shown ps ++ heading ++ url_line u
                       ++ [StWrite ("**Prediction:** " ++ fstr p)]
                       ++ verdict p)%list)).
Proof.
  assert (D : forall p, getitem v (Key "prediction") = inr p ->
                        exists d, v = PDict d /\ dict_get "prediction" d = Some p).
  { intros p G. destruct v as [|b|n|x|t|l|d]; try discriminate.
    exists d. split; [reflexivity|]. simpl in G.
    destruct (dict_get "prediction" d); [now injection G as -> | discriminate]. }
  split.
  - destruct (getitem v (Key "prediction")) as [e|p] eqn:G.
    { rewrite (render_unreadable _ _ _ _ G). discriminate. }
    destruct (eq_str "Error" p) eqn:E.
    { rewrite (render_error _ _ _ _ G E). discriminate. }
    destruct (D p eq_refl) as (d & -> & Gd).
    rewrite (render_dict _ _ _ _ Gd E).
    match goal with
    | |- fst (show_confidence ?a ?b ?st) <> _ =>
        destruct (show_confidence_outcome a b st) as [H | [H | H]];
          rewrite H; discriminate
    end.
  - intros p G E. destruct (D p G) as (d & -> & Gd).
    exists d. split; [reflexivity|]. now apply render_dict.
Qed.

(** X12. The display of a reply: for an object with a prediction other
    than Error and two confidences that are not null, have a percent
    text and are accepted by [st.progress] (a missing confidence counts
    as 0.0), the page displays, in this order, the heading, the URL in
    URL mode, the prediction, its sentence when it is one of the three
    labels, the title of the confidence levels and the two bars; it logs
    nothing and raises nothing. *)
Theorem display_of_reply (u : option string) d p t1 t2 (ps : page_state) :
  dict_get "prediction" d = Some p ->
  eq_str "Error" p = false ->
  is_not_None (confidence "real_confidence" d) = true ->
  is_not_None (confidence "fake_confidence" d) = true ->
  format_percent (confidence "real_confidence" d) = Some t1 ->
  progress_accepts (confidence "real_confidence" d) = true ->
  format_percent (confidence "fake_confidence" d) = Some t2 ->
  progress_accepts (confidence "fake_confidence" d) = true ->
  render u (PDict d) ps
  = (inr tt,
     mkPage (core ps)
       (shown ps ++ heading ++ url_line u
        ++ [StWrite ("**Prediction:** " ++ fstr p)] ++ verdict p
        ++ [StMarkdown "---"; StMarkdown "### Confidence Levels";
            StProgress (confidence "real_confidence" d)
              ("Real News Confidence: " ++ t1);
            StProgress (confidence "fake_confidence" d)
              ("Fake News Confidence: " ++ t2)])%list).
Proof.
  intros G E N1 N2 F1 A1 F2 A2.
  rewrite (render_dict _ _ _ _ G E), show_confidence_some by (now rewrite N1, N2).
  unfold pbind, fpercent, st_progress. rewrite F1. unfold pret at 1.
  rewrite A1. unfold show at 1. rewrite F2. unfold pret at 1.
  rewrite A2. unfold show. flatten_widgets. reflexivity.
Qed.

(** X13. A null confidence hides the confidence levels: when either
    confidence of the reply is null, the page displays the heading, the
    prediction and its sentence, and stops there without raising,
    whatever the other confidence is. *)
Theorem null_confidence_hides_bars (u : option string) d p (ps : page_state) :
  dict_get "prediction" d = Some p ->
  eq_str "Error" p = false ->
  (dict_get "real_confidence" d = Some PNone \/
   dict_get "fake_confidence" d = Some PNone) ->
  render u (PDict d) ps
  = (inr tt,
     mkPage (core ps)
       (shown ps ++ heading ++ url_line u
        ++ [StWrite ("**Prediction:** " ++ fstr p)] ++ verdict p)%list).
Proof.
  intros G E N. rewrite (render_dict _ _ _ _ G E).
  apply show_confidence_none. unfold confidence.
  destruct N as [-> | ->]; [reflexivity | apply andb_false_r].
Qed.

(** X14. A confidence that cannot be displayed makes the script raise
    half way: when the real confidence of the reply is not null (nor the
    fake one) and has no percent text, or has one and is refused by
    [st.progress], the script raises after it displayed everything up
    to the title of the confidence levels, and displays no bar. *)
Theorem bad_confidence_raises_midway (u : option string) d p (ps : page_state) :
  dict_get "prediction" d = Some p ->
  eq_str "Error" p = false ->
  is_not_None (confidence "real_confidence" d) = true ->
  is_not_None (confidence "fake_confidence" d) = true ->
  (format_percent (confidence "real_confidence" d) = None \/
   progress_accepts (confidence "real_confidence" d) = false) ->
  exists e,
    render u (PDict d) ps
    = (inl e,
       mkPage (core ps)
         (shown ps ++ heading ++ url_line u
          ++ [StWrite ("**Prediction:** " ++ fstr p)] ++ verdict p
          ++ [StMarkdown "---"; StMarkdown "### Confidence Levels"])%list) /\
    (e = FormatError \/ e = StreamlitAPIException).
Proof.
  intros G E N1 N2 B.
  rewrite (render_dict _ _ _ _ G E), show_confidence_some by (now rewrite N1, N2).
  unfold pbind at 1, fpercent at 1.
  destruct (format_percent (confidence "real_confidence" d)) as [t1|] eqn:F1.
  - destruct B as [B | B]; [discriminate|].
    exists StreamlitAPIException. split; [|now right].
    unfold pret at 1. unfold pbind at 1, st_progress at 1. rewrite B.
    unfold praise. flatten_widgets. reflexivity.
  - exists FormatError. split; [|now left].
    unfold praise. flatten_widgets. reflexivity.
Qed.

End PageFacts.

(** * More runs *)

Section CleanRun.
Import Py.
#[local] Existing Instance Sim.fake.

Lemma silent_run_is_success_run :
  [Post (api_request "Breaking news")] = [Post (api_request "Breaking news")] /\
  exists resp,
    answered "Breaking news" resp /\
    decoded_from resp
      (PDict [("prediction", PStr "Fake");
              ("real_confidence", PFloat (float_of_decimal false 1 (-1)));
              ("fake_confidence", PFloat (float_of_decimal false 9 (-1)))]).
Proof.
  apply (silent_run_is_success (R := Sim.fake) "Breaking news"
           (Sim.start (R := Sim.fake) 0%nat)
           (after (Sim.start (R := Sim.fake) 0%nat) 1%nat [Post (api_request (R := Sim.fake) "Breaking news")])).
  - reflexivity.
  - reflexivity.
  - reflexivity.
  - reflexivity.
Defined.

End CleanRun.

Section FlakyRun.
Import Py.
#[local] Existing Instance SimPage.flaky.

Lemma retry_then_reply_run :
  classify_text_with_api "Breaking news" (Sim.start 0%nat)
  = (inr (PDict [("prediction", PStr "Fake");
                 ("real_confidence", PFloat (float_of_decimal false 1 (-1)));
                 ("fake_confidence", PFloat (float_of_decimal false 9 (-1)))]),
     after (Sim.start 0%nat) 2%nat
       [Post (api_request "Breaking news");
        StWarning "Rate limit exceeded. Retrying in 2 seconds..."; Sleep 2;
        Post (api_request "Breaking news")]).
Proof.
  apply (retry_then_reply (R := SimPage.flaky) "Breaking news" (Sim.start (R := SimPage.flaky) 0%nat)
           1%nat 1%nat (mkResponse 200 (Sim.completion Sim.fake_reply)) 2%nat).
  - lia.
  - eapply limited_S; [reflexivity | reflexivity | apply limited_O].
  - reflexivity.
  - split; [reflexivity|].
    exists (Sim.completion_value Sim.fake_reply), Sim.fake_reply.
    split; [vm_compute; reflexivity|]. split; [reflexivity|].
    vm_compute; reflexivity.
Defined.

End FlakyRun.

Section FlakyThenBrokenRun.
Import Py.
#[local] Existing Instance SimPage.flaky_then_broken.

Lemma retry_then_failure_run :
  exists msg,
    classify_text_with_api "Breaking news" (Sim.start 0%nat)
    = (inr error_result,
       after (Sim.start 0%nat) 3%nat
         [Post (api_request "Breaking news");
          StWarning "Rate limit exceeded. Retrying in 2 seconds..."; Sleep 2;
          Post (api_request "Breaking news");
          StWarning "Rate limit exceeded. Retrying in 4 seconds..."; Sleep 4;
          Post (api_request "Breaking news"); StError msg]).
Proof.
  apply (retry_then_failure (R := SimPage.flaky_then_broken) "Breaking news"
           (Sim.start (R := SimPage.flaky_then_broken) 0%nat) 2%nat 2%nat
           (inr (mkResponse 503 "Service Unavailable")) 3%nat).
  - lia.
  - eapply limited_S; [reflexivity | reflexivity |].
    eapply limited_S; [reflexivity | reflexivity | apply limited_O].
  - reflexivity.
  - split; [reflexivity | discriminate].
Defined.

End FlakyThenBrokenRun.

Section HeadlessRun.
Import Py.
#[local] Existing Instance SimPage.headless.

Lemma missing_fields_is_error_run :
  exists msg,
    classify_text_with_api "Breaking news" (Sim.start 0%nat)
    = (inr error_result,
       after (Sim.start 0%nat) 1%nat
         [Post (api_request "Breaking news"); StError msg]).
Proof.
  apply (missing_fields_is_error (R := SimPage.headless) "Breaking news"
           (Sim.start (R := SimPage.headless) 0%nat)
           (mkResponse 200
              ("{" ++ Str.quoted "choices" ++ ":[{" ++ Str.quoted "index" ++ ":0}]}"))
           1%nat
           (PDict [("choices", PList [PDict [("index", PInt 0)]])])
           (KeyError (Key "message"))).
  - reflexivity.
  - reflexivity.
  - vm_compute; reflexivity.
  - reflexivity.
Defined.

End HeadlessRun.

Section OnlineRun.
Import Py.
#[local] Existing Instance SimPage.online.

Lemma extract_short_whole_long_cut_run :
  exists t,
    extract_text_from_url "short" (Sim.start 0%nat)
    = (inr t, after (Sim.start 0%nat) 0%nat [Download "short"]) /\
    ((String.length SimPage.short_page <= 2000)%nat -> t = SimPage.short_page) /\
    ((2000 <= String.length SimPage.short_page)%nat -> String.length t = 2000%nat).
Proof.
  apply (extract_short_whole_long_cut (R := SimPage.online) "short"
           (Sim.start (R := SimPage.online) 0%nat) SimPage.short_page 0%nat).
  reflexivity.
Defined.

(** A page of 2005 characters comes back with 2000. *)
Example long_article_is_cut :
  option_map String.length
    (match fst (extract_text_from_url "long" (Sim.start 0%nat)) with
     | inr t => Some t
     | inl _ => None
     end)
  = Some 2000%nat.
Proof. vm_compute; reflexivity. Qed.

End OnlineRun.

Section BlankInputRun.
Import Py.
#[local] Existing Instance Sim.fake.
#[local] Existing Instance SimPage.widgets.

Lemma blank_input_only_warns_run :
  on_analyze URL "   " true (SimPage.blank_page (R := Sim.fake) 0%nat)
  = (inr tt,
     mkPage (after (Sim.start (R := Sim.fake) 0%nat) 0%nat
               [StWarning "⚠️ Please provide text or a URL to analyze."])
            [])
  /\ on_analyze URL "   " false (SimPage.blank_page (R := Sim.fake) 0%nat)
     = (inr tt, SimPage.blank_page 0%nat).
Proof.
  apply (blank_input_only_warns (R := Sim.fake) (W := SimPage.widgets)
           URL "   " (SimPage.blank_page (R := Sim.fake) 0%nat)).
  reflexivity.
Defined.

Lemma display_of_reply_run :
  render (Some "https://example.org/a")
    (PDict [("prediction", PStr "Fake");
            ("real_confidence", PFloat (float_of_decimal false 1 (-1)));
            ("fake_confidence", PFloat (float_of_decimal false 9 (-1)))])
    (SimPage.blank_page 0%nat)
  = (inr tt,
     mkPage (Sim.start 0%nat)
       [StSuccess "✅ Analysis complete!";
        StMarkdown "---";
        StMarkdown "**URL Analyzed:** [https://example.org/a](https://example.org/a)";
        StWrite "**Prediction:** Fake";
        StMarkdown "This content is likely to be **FAKE NEWS**.";
        StMarkdown "---";
        StMarkdown "### Confidence Levels";
        StProgress (PFloat (float_of_decimal false 1 (-1)))
          "Real News Confidence: 10.00%";
        StProgress (PFloat (float_of_decimal false 9 (-1)))
          "Fake News Confidence: 90.00%"]).
Proof.
  apply (display_of_reply (R := Sim.fake) (W := SimPage.widgets)
           (Some "https://example.org/a")
           [("prediction", PStr "Fake");
            ("real_confidence", PFloat (float_of_decimal false 1 (-1)));
            ("fake_confidence", PFloat (float_of_decimal false 9 (-1)))]
           (PStr "Fake") "10.00%" "90.00%" (SimPage.blank_page (R := Sim.fake) 0%nat));
    vm_compute; reflexivity.
Defined.

Lemma null_confidence_hides_bars_run :
  render None
    (PDict [("prediction", PStr "True");
            ("real_confidence", PNone);
            ("fake_confidence", PStr "low")])
    (SimPage.blank_page 0%nat)
  = (inr tt,
     mkPage (Sim.start 0%nat)
       [StSuccess "✅ Analysis complete!";
        StMarkdown "---";
        StWrite "**Prediction:** True";
        StMarkdown "This content is likely to be **REAL NEWS**."]).
Proof.
  apply (null_confidence_hides_bars (R := Sim.fake) (W := SimPage.widgets)
           None
           [("prediction", PStr "True");
            ("real_confidence", PNone);
            ("fake_confidence", PStr "low")]
           (PStr "True") (SimPage.blank_page (R := Sim.fake) 0%nat)).
  - reflexivity.
  - reflexivity.
  - left. reflexivity.
Defined.

Lemma bad_confidence_raises_midway_run :
  exists e,
    render None
      (PDict [("prediction", PStr "Satire");
              ("real_confidence", PFloat (float_of_decimal false 15 (-1)));
              ("fake_confidence", PFloat (float_of_decimal false 5 (-1)))])
      (SimPage.blank_page 0%nat)
    = (inl e,
       mkPage (Sim.start 0%nat)
         [StSuccess "✅ Analysis complete!";
          StMarkdown "---";
          StWrite "**Prediction:** Satire";
          StMarkdown "---";
          StMarkdown "### Confidence Levels"]) /\
    (e = FormatError \/ e = StreamlitAPIException).
Proof.
  apply (bad_confidence_raises_midway (R := Sim.fake) (W := SimPage.widgets)
           None
           [("prediction", PStr "Satire");
            ("real_confidence", PFloat (float_of_decimal false 15 (-1)));
            ("fake_confidence", PFloat (float_of_decimal false 5 (-1)))]
           (PStr "Satire") (SimPage.blank_page (R := Sim.fake) 0%nat)).
  - reflexivity.
  - reflexivity.
  - reflexivity.
  - reflexivity.
  - right. vm_compute; reflexivity.
Defined.

End BlankInputRun.

Section FailurePageRun.
Import Py.
#[local] Existing Instance Sim.busy.
#[local] Existing Instance SimPage.widgets.

Lemma failure_shows_fixed_message_run :
  on_analyze Text "Breaking news" true (SimPage.blank_page 0%nat)
  = (inr tt,
     mkPage
       (after (Sim.start 0%nat) 3%nat
          [Post (api_request "Breaking news");
           StWarning "Rate limit exceeded. Retrying in 2 seconds..."; Sleep 2;
           Post (api_request "Breaking news");
           StWarning "Rate limit exceeded. Retrying in 4 seconds..."; Sleep 4;
           Post (api_request "Breaking news");
           StWarning "Rate limit exceeded. Retrying in 8 seconds..."; Sleep 8;
           StError "Could not get a valid response from the API."])
       []).
Proof.
  apply (failure_shows_fixed_message (R := Sim.busy) (W := SimPage.widgets)
           Text "Breaking news" (SimPage.blank_page (R := Sim.busy) 0%nat) error_result
           (after (Sim.start (R := Sim.busy) 0%nat) 3%nat
              [Post (api_request (R := Sim.busy) "Breaking news");
               StWarning "Rate limit exceeded. Retrying in 2 seconds..."; Sleep 2;
               Post (api_request (R := Sim.busy) "Breaking news");
               StWarning "Rate limit exceeded. Retrying in 4 seconds..."; Sleep 4;
               Post (api_request (R := Sim.busy) "Breaking news");
               StWarning "Rate limit exceeded. Retrying in 8 seconds..."; Sleep 8])).
  - reflexivity.
  - reflexivity.
  - reflexivity.
Defined.

End FailurePageRun.

Section CrashPageRun.
Import Py.
#[local] Existing Instance Sim.partial.
#[local] Existing Instance SimPage.widgets.

Lemma reply_without_prediction_raises_run :
  exists e,
    on_analyze Text "Breaking news" true (SimPage.blank_page 0%nat)
    = (inl (Raised e),
       mkPage (after (Sim.start 0%nat) 1%nat [Post (api_request "Breaking news")])
              []) /\
    (e = TypeError \/ e = KeyError (Key "prediction")).
Proof.
  apply (reply_without_prediction_raises (R := Sim.partial) (W := SimPage.widgets)
           Text "Breaking news" (SimPage.blank_page (R := Sim.partial) 0%nat)
           (PDict [("real_confidence", PFloat (float_of_decimal false 5 (-1)))])
           (after (Sim.start (R := Sim.partial) 0%nat) 1%nat [Post (api_request (R := Sim.partial) "Breaking news")])).
  - reflexivity.
  - reflexivity.
  - intros d [= <-]. reflexivity.
Defined.

End CrashPageRun.

Section LateErrorRun.
Import Py.
#[local] Existing Instance SimPage.late_error.

(** Against C8 as the specification words it: the article is fetched
    and its text contains the word Error, behind character 2000; the
    script does not stop: the returned string has no such word, the
    classifier is called, posts its request and returns the reply. *)
Lemma error_beyond_cut_is_classified :
  article_text "https://example.org/a" (world (Sim.start 0%nat))
  = (inr SimPage.late_error_page, 0%nat) /\
  (exists a b, SimPage.late_error_page = a ++ "Error" ++ b) /\
  fst (extract_text_from_url "https://example.org/a" (Sim.start 0%nat))
  = inr SimPage.filler /\
  Str.contains "Error" SimPage.filler = false /\
  fst (analyze URL "https://example.org/a" (Sim.start 0%nat))
  = inr (PDict [("prediction", PStr "Fake");
                ("real_confidence", PFloat (float_of_decimal false 1 (-1)));
                ("fake_confidence", PFloat (float_of_decimal false 9 (-1)))]) /\
  List.length (posts (log (snd (analyze URL "https://example.org/a"
                                  (Sim.start 0%nat))))) = 1%nat.
Proof.
  split; [reflexivity|].
  split; [exists SimPage.filler, EmptyString; vm_compute; reflexivity|].
  split; [vm_compute; reflexivity|].
  split; [vm_compute; reflexivity|].
  split; vm_compute; reflexivity.
Qed.

End LateErrorRun.
